(** * FHIR-Converter: the HTTP routes of [src/routes.js]

    A shallow embedding of the route handlers that front the template
    cache, the git-backed template store and the conversion worker pool,
    and the properties of their status codes, cache invalidation and
    worker-pool broadcasts.

    Every handler is written as a program over the calls it makes on its
    collaborators ([templateCache], [gfs], [workerPool], [fs], [ncp],
    [res], [next]); promise callbacks become the continuation of the
    call, selected by the way the promise settles. *)

From Stdlib Require Import ZArith String List.
From stdpp Require Import base option gmap strings list pretty.

Set Warnings "-register-all".
Open Scope Z_scope.

(** ** JavaScript values carried by requests and worker replies *)

Inductive Json : Type :=
| JUndefined
| JNull
| JBool (b : bool)
| JNum (n : Z)
| JStr (s : string)
| JArr (items : list Json)
| JObj (fields : list (string * Json)).

(** A string is a JavaScript value. *)
Coercion JStr : string >-> Json.

(** [!v] is [negb (truthy v)]. *)
Definition truthy (v : Json) : bool :=
  match v with
  | JUndefined | JNull => false
  | JBool b => b
  | JNum n => negb (n =? 0)
  | JStr s => negb (String.eqb s "")
  | JArr _ | JObj _ => true
  end.

(** [o.k] for an object given by its fields: the value of the first
    field named [k], [undefined] when there is none. *)
Fixpoint prop (fields : list (string * Json)) (k : string) : Json :=
  match fields with
  | [] => JUndefined
  | (k', v) :: rest => if String.eqb k' k then v else prop rest k
  end.

(** [v.k] for a value that is neither [null] nor [undefined]: the field
    of an object; an array or a primitive has no property of the names
    read here. *)
Definition get_property (v : Json) (k : string) : Json :=
  match v with
  | JObj fields => prop fields k
  | _ => JUndefined
  end.

(** ** Requests *)

(** [req.body] after [bodyParser.json()] and [bodyParser.text()]: the
    text of a [text/plain] body, otherwise an object (empty when nothing
    was parsed). *)
Inductive Body : Type :=
| BodyText (s : string)
| BodyJson (fields : list (string * Json)).

(** [req.body.k]; a string primitive has no own property of these names. *)
Definition body_field (b : Body) (k : string) : Json :=
  match b with
  | BodyText _ => JUndefined
  | BodyJson fields => prop fields k
  end.

(** [req.body.toString()]. *)
Definition body_toString (b : Body) : string :=
  match b with
  | BodyText s => s
  | BodyJson _ => "[object Object]"
  end.

Record Req : Type := mkReq {
  url : string;                   (* req.url, relative to the mount point *)
  body : Body;                    (* req.body *)
  param : string;                 (* req.params.file / req.params.template *)
  api_version : option string     (* req.query['api-version'] *)
}.

Definition set_url (u : string) (r : Req) : Req :=
  {| url := u; body := body r; param := param r; api_version := api_version r |}.

(** ** Responses *)

(** The codes of [lib/error/error.js] that the routes name. *)
Inductive ErrorCode : Type := BadRequest | NotFound | Conflict | WriteError.

Inductive Payload : Type :=
| errorMessage (code : ErrorCode) (message : Json)     (* the error envelope *)
| Document (j : Json)                                  (* res.json(j) *)
| Text (s : string)                                    (* res.end(s) *)
| Empty.                                               (* res.end() *)

(** [res]: the status code set so far (Express starts at 200) and what
    went out, with the status it went out under. *)
Record Res : Type := mkRes {
  statusCode : Z;
  sent : option (Z * Payload)
}.

Definition fresh_res : Res := {| statusCode := 200; sent := None |}.

Definition res_status (code : Z) (r : Res) : Res :=
  {| statusCode := code; sent := sent r |}.

Definition res_send (p : Payload) (r : Res) : Res :=
  match sent r with
  | Some _ => r
  | None => {| statusCode := statusCode r; sent := Some (statusCode r, p) |}
  end.

(** ** Promises *)

(** How a promise settles. *)
Inductive Outcome (A : Type) : Type :=
| Resolved (a : A)
| Rejected (reason : string).
Arguments Resolved {A} a.
Arguments Rejected {A} reason.

(** ** Worker pool messages, jobs and replies *)

Inductive Message : Type :=
| templatesUpdated
| constantsUpdated (data : string).

Inductive Job : Type :=
| ConvertHl7 (messageBase64 templateBase64
              replacementDictionaryBase64 templatesMapBase64 : Json)
| ConvertHl7Template (messageContent templateName : string).

(** The worker's reply [{status, resultMsg}]; [resultMsg] is an object,
    the conversion envelope or the error envelope. *)
Record Result : Type := mkResult {
  status : Z;
  resultMsg : list (string * Json)
}.

Record Branch : Type := mkBranch {
  name : string;
  baseBranch : option string
}.

(** ** The template directory reached through [fs] *)

Inductive Node : Type :=
| File (content : string)
| Dir (entries : gmap string Node).

(** A path below [constants.TEMPLATE_FILES_LOCATION], by its segments:
    [path.join(constants.TEMPLATE_FILES_LOCATION, x)] is [[x]]. *)
Definition Path : Type := list string.

Definition TEMPLATE_FILES_LOCATION : Path := [].

Definition path_join (p : Path) (segment : string) : Path := p ++ [segment].

(** The node a path leads to. *)
Fixpoint node_at (p : Path) (n : Node) : option Node :=
  match p with
  | [] => Some n
  | s :: rest =>
      match n with
      | Dir m => m !! s ≫= node_at rest
      | File _ => None
      end
  end.

(** [fse.ensureDirSync]: the directory and its missing parents are
    created; a file in the way is an error. *)
Fixpoint ensureDir (p : Path) (n : Node) : option Node :=
  match p with
  | [] => match n with Dir _ => Some n | File _ => None end
  | s :: rest =>
      match n with
      | Dir m =>
          child ← ensureDir rest (default (Dir ∅) (m !! s));
          Some (Dir (<[s := child]> m))
      | File _ => None
      end
  end.

(** [fs.readdirSync]: the names of the entries of a directory. *)
Definition readdir (p : Path) (n : Node) : option (list string) :=
  match node_at p n with
  | Some (Dir m) => Some (map_to_list m).*1
  | _ => None
  end.

(** Taking the node at a path out of the tree. *)
Fixpoint detach (p : Path) (n : Node) : option (Node * Node) :=
  match p, n with
  | [], _ => None
  | _, File _ => None
  | [s], Dir m => x ← m !! s; Some (x, Dir (delete s m))
  | s :: rest, Dir m =>
      child ← m !! s;
      '(x, child') ← detach rest child;
      Some (x, Dir (<[s := child']> m))
  end.

(** What [rename] may replace: a file by a file, an empty directory by
    a directory. *)
Definition replaceable (x old : Node) : bool :=
  match x, old with
  | File _, File _ => true
  | Dir _, Dir m => bool_decide (m = ∅)
  | _, _ => false
  end.

(** Putting a node at a path whose parent directory exists. *)
Fixpoint attach (p : Path) (x : Node) (n : Node) : option Node :=
  match p, n with
  | [], _ => None
  | _, File _ => None
  | [s], Dir m =>
      match m !! s with
      | None => Some (Dir (<[s := x]> m))
      | Some old => if replaceable x old then Some (Dir (<[s := x]> m)) else None
      end
  | s :: rest, Dir m =>
      child ← m !! s;
      child' ← attach rest x child;
      Some (Dir (<[s := child']> m))
  end.

(** [fse.renameSync(src, dst)]. *)
Definition rename (src dst : Path) (n : Node) : option Node :=
  '(x, n') ← detach src n;
  attach dst x n'.

(** ** Collaborators

    The modules under [lib/] are reached by the routes through the
    calls below; the signatures are those of the call sites in
    [routes.js].  A call whose promise the route gives a rejection
    callback ([.catch]) may reject, and so may [commitAllChanges], which
    fails when it loses a race for the repository although the route
    chains it with [.then] alone; the other calls chained with [.then]
    alone ([has], [getStatus], [getBranches], [exec]) settle with a
    value, as the description of these operations gives them no
    failure. *)

(** [lib/fsCache/cache.js], for [templateCache]. *)
Class FsCache (C : Type) : Type := {
  cache_keys : C → Outcome (list string) * C;
  cache_get : string → C → Outcome string * C;
  cache_has : string → C → bool * C;
  cache_set : string → string → C → Outcome bool * C;
  cache_remove : string → C → Outcome unit * C;
  cache_clear : C → C
}.

(** [lib/git-filesystem/git-filesystem.js], for [gfs]. *)
Class GitFilesystem (G : Type) : Type := {
  repoName : G → string;
  getStatus : G → list string;
  getBranches : G → list Branch;
  createBranch : Json → Json → G → Outcome unit * G;
  checkoutBranch : Json → G → Outcome unit * G;
  commitAllChanges : Json → Json → Json → G → Outcome unit * G;
  repos_handle : Req → G → Res → G * Res
}.

(** [lib/workers/workerPool.js], for [workerPool]. *)
Class WorkerPool (P : Type) : Type := {
  broadcast : Message → P → P;
  exec : Job → P → Result * P
}.

(** [ncp(source, destination, callback)]: the value handed to the
    callback as [err] ([null] when all went well, otherwise the errors
    met, which [ncp] collects in an array) and the destination directory
    afterwards. *)
Class Ncp : Type :=
  ncp : gmap string Node → gmap string Node → Json * gmap string Node.

(** ** Calls and handler programs *)

Inductive Call : Type → Type :=
| CacheKeys : Call (Outcome (list string))
| CacheGet (file : string) : Call (Outcome string)
| CacheHas (file : string) : Call bool
| CacheSet (file content : string) : Call (Outcome bool)
| CacheRemove (file : string) : Call (Outcome unit)
| CacheClear : Call unit
| GfsRepoName : Call string
| GfsGetStatus : Call (list string)
| GfsGetBranches : Call (list Branch)
| GfsCreateBranch (name baseBranch : Json) : Call (Outcome unit)
| GfsCheckoutBranch (name : Json) : Call (Outcome unit)
| GfsCommitAllChanges (message name email : Json) : Call (Outcome unit)
| GfsReposHandle (req : Req) : Call unit
| PoolBroadcast (m : Message) : Call unit
| PoolExec (job : Job) : Call Result
| Next (req : Req) : Call unit
| ResStatus (code : Z) : Call unit
| ResJson (p : Payload) : Call unit
| ResEnd (text : option string) : Call unit
| DateGetTime : Call Z
| EnsureDirSync (p : Path) : Call (Outcome unit)
| ReaddirSync (p : Path) : Call (Outcome (list string))
| RenameSync (src dst : Path) : Call (Outcome unit)
| NcpBaseTemplates : Call Json.

Inductive Prog (A : Type) : Type :=
| Ret (a : A)
| Do {X : Type} (c : Call X) (k : X → Prog A).
Arguments Ret {A} a.
Arguments Do {A X} c k.

Fixpoint bind {A B : Type} (p : Prog A) (f : A → Prog B) : Prog B :=
  match p with
  | Ret a => f a
  | Do c k => Do c (fun x => bind (k x) f)
  end.

Definition call {X : Type} (c : Call X) : Prog X := Do c Ret.

#[global] Instance prog_ret : MRet Prog := @Ret.
#[global] Instance prog_bind : MBind Prog := fun A B f p => bind p f.

(** A call together with what it answered. *)
Inductive Event : Type :=
| Ev {X : Type} (c : Call X) (answer : X).

(** ** The routes *)

(** [names.includes(v)] for an array of strings. *)
Definition includes (names : list string) (v : Json) : bool :=
  match v with
  | JStr s => existsb (String.eqb s) names
  | _ => false
  end.

(** [app.use('/git', ...)]; the result is [req] as the handler leaves it. *)
Definition git (req : Req) : Prog Req :=
  if negb (String.prefix "/info" (url req))
     && negb (String.eqb (url req) "/git-upload-pack")
     && negb (String.eqb (url req) "/git-receive-pack")
  then
    call (Next req);;
    mret req
  else
    repo ← call GfsRepoName;
    let req := set_url ("/" +:+ repo +:+ url req) req in
    call (GfsReposHandle req);;
    call (PoolBroadcast templatesUpdated);;
    mret req.

(** [app.post('/api/templates/git/branches', ...)]. *)
Definition post_branches (req : Req) : Prog unit :=
  if negb (truthy (body_field (body req) "name")) then
    call (ResStatus 400);;
    call (ResJson (errorMessage BadRequest "Branch name required"))
  else
    created ← call (GfsCreateBranch (body_field (body req) "name")
                                    (body_field (body req) "baseBranch"));
    match created with
    | Resolved _ =>
        call (ResStatus 201);;
        call (ResEnd None)
    | Rejected errorReason =>
        call (ResStatus 409);;
        call (ResJson (errorMessage Conflict
                         ("Unable to create new branch: " +:+ errorReason)))
    end.

(** [app.post('/api/templates/git/checkout', ...)]. *)
Definition post_checkout (req : Req) : Prog unit :=
  if negb (truthy (body_field (body req) "name")) then
    call (ResStatus 400);;
    call (ResJson (errorMessage BadRequest "Branch name required"))
  else
    branches ← call GfsGetBranches;
    if includes (map name branches) (body_field (body req) "name") then
      checkedOut ← call (GfsCheckoutBranch (body_field (body req) "name"));
      match checkedOut with
      | Resolved _ =>
          call CacheClear;;
          call (PoolBroadcast templatesUpdated);;
          call (ResStatus 200);;
          call (ResEnd None)
      | Rejected errReason =>
          call (ResStatus 409);;
          call (ResJson (errorMessage Conflict
                           ("Unable to checkout branch: " +:+ errReason)))
      end
    else
      call (ResStatus 404);;
      call (ResJson (errorMessage NotFound "Branch not found")).

(** [app.post('/api/templates/git/commit', ...)].  The promise of
    [commitAllChanges] has a [then] callback only: when it rejects, the
    handler makes no further call. *)
Definition post_commit (req : Req) : Prog unit :=
  changed ← call GfsGetStatus;
  if (0 <? length changed)%nat then
    committed ← call (GfsCommitAllChanges (body_field (body req) "message")
                                          (body_field (body req) "name")
                                          (body_field (body req) "email"));
    match committed with
    | Resolved _ =>
        call (ResStatus 200);;
        call (ResEnd None)
    | Rejected _ => mret tt
    end
  else
    call (ResStatus 409);;
    call (ResJson (errorMessage Conflict "No changes to commit")).

(** [app.get('/api/templates/:file', ...)]. *)
Definition get_template (req : Req) : Prog unit :=
  got ← call (CacheGet (param req));
  match got with
  | Resolved content => call (ResEnd (Some content))
  | Rejected _ =>
      call (ResStatus 404);;
      call (ResJson (errorMessage NotFound "Template not found"))
  end.

(** [app.put('/api/templates/:file', ...)]. *)
Definition put_template (req : Req) : Prog unit :=
  existed ← call (CacheHas (param req));
  written ← call (CacheSet (param req) (body_toString (body req)));
  match written with
  | Resolved _ =>
      call (PoolBroadcast templatesUpdated);;
      call (ResStatus (if existed : bool then 200 else 201));;
      call (ResEnd None)
  | Rejected _ =>
      call (ResStatus 403);;
      call (ResJson (errorMessage WriteError
                       ("Unable to write template " +:+ param req)))
  end.

(** [app.delete('/api/templates/:file', ...)]. *)
Definition delete_template (req : Req) : Prog unit :=
  removed ← call (CacheRemove (param req));
  match removed with
  | Resolved _ =>
      call (PoolBroadcast templatesUpdated);;
      call (ResStatus 204);;
      call (ResEnd None)
  | Rejected _ =>
      call (ResStatus 404);;
      call (ResJson (errorMessage NotFound
                       ("Unable to find a template with name " +:+ param req
                        +:+ " to delete.")))
  end.

(** The [forEach] of [UpdateBaseTemplates]: every entry whose name does
    not start with a dot is renamed into the temporary folder.  A
    [renameSync] that throws ends the loop, and the handler with it. *)
Fixpoint move_aside (tempFolderName : Path) (existingFiles : list string)
  : Prog (Outcome unit) :=
  match existingFiles with
  | [] => mret (Resolved tt)
  | fl :: rest =>
      if negb (String.prefix "." fl) then
        renamed ← call (RenameSync (path_join TEMPLATE_FILES_LOCATION fl)
                                   (path_join tempFolderName fl));
        match renamed with
        | Resolved _ => move_aside tempFolderName rest
        | Rejected e => mret (Rejected e)
        end
      else move_aside tempFolderName rest
  end.

(** [app.post('/api/UpdateBaseTemplates', ...)].  The result tells how
    the handler function is left: [Rejected] by the exception of one of
    the synchronous [fs] calls, which goes to Express and its error
    handling, [Resolved] once [ncp] and its callback have been reached.
    [ncp.limit], the number of files [ncp] copies at a time, has no part
    in the result. *)
Definition post_UpdateBaseTemplates (req : Req) : Prog (Outcome unit) :=
  now ← call DateGetTime;
  let tempFolderName :=
    path_join TEMPLATE_FILES_LOCATION (".temp" +:+ pretty now) in
  ensured ← call (EnsureDirSync tempFolderName);
  match ensured with
  | Rejected e => mret (Rejected e)
  | Resolved _ =>
      listed ← call (ReaddirSync TEMPLATE_FILES_LOCATION);
      match listed with
      | Rejected e => mret (Rejected e)
      | Resolved existingFiles =>
          moved ← move_aside tempFolderName existingFiles;
          match moved with
          | Rejected e => mret (Rejected e)
          | Resolved _ =>
              err ← call NcpBaseTemplates;
              if truthy err then
                call (ResStatus 403);;
                call (ResJson (errorMessage WriteError
                                 (get_property err "message")));;
                mret (Resolved tt)
              else
                call CacheClear;;
                call (PoolBroadcast templatesUpdated);;
                call (ResStatus 200);;
                call (ResEnd None);;
                mret (Resolved tt)
          end
      end
  end.

(** [app.post('/api/convert/hl7', ...)]. *)
Definition post_convert_hl7 (req : Req) : Prog unit :=
  result ← call (PoolExec
                   (ConvertHl7 (body_field (body req) "messageBase64")
                               (body_field (body req) "templateBase64")
                               (body_field (body req) "replacementDictionaryBase64")
                               (body_field (body req) "templatesMapBase64")));
  call (ResStatus (status result));;
  if bool_decide (api_version req = Some "1.0") then
    call (ResJson (Document (JObj (resultMsg result))))
  else if status result =? 200 then
    call (ResJson (Document (prop (resultMsg result) "fhirResource")))
  else
    call (ResJson (Document (JObj (resultMsg result)))).

(** [app.post('/api/convert/hl7/:template', ...)]. *)
Definition post_convert_hl7_template (req : Req) : Prog unit :=
  result ← call (PoolExec
                   (ConvertHl7Template (body_toString (body req)) (param req)));
  call (ResStatus (status result));;
  if bool_decide (api_version req = Some "1.0") then
    call (ResJson (Document (JObj (resultMsg result))))
  else if status result =? 200 then
    call (ResJson (Document (prop (resultMsg result) "fhirResource")))
  else
    call (ResJson (Document (JObj (resultMsg result)))).

(** ** Running a handler *)

(** What a handler can reach: the response under construction, the
    requests it passed on with [next()], its three collaborators, the
    template directory and the base template directory as its own [fs]
    and [ncp] calls find them, and the clock.  What a collaborator keeps
    on disk (the files behind the cache, the repository and working
    tree of the store) is part of that collaborator's state. *)
Record World (C G P : Type) : Type := mkWorld {
  res : Res;
  forwarded : list Req;
  templateCache : C;
  gfs : G;
  workerPool : P;
  templateDir : gmap string Node;
  baseTemplateDir : gmap string Node;
  clock : Z
}.
Arguments mkWorld {C G P}.
Arguments res {C G P}.
Arguments forwarded {C G P}.
Arguments templateCache {C G P}.
Arguments gfs {C G P}.
Arguments workerPool {C G P}.
Arguments templateDir {C G P}.
Arguments baseTemplateDir {C G P}.
Arguments clock {C G P}.

Section Semantics.
Context {C G P : Type}.
Context `{!FsCache C, !GitFilesystem G, !WorkerPool P, !Ncp}.

Definition with_res (r : Res) (w : World C G P) : World C G P :=
  mkWorld r (forwarded w) (templateCache w) (gfs w) (workerPool w)
          (templateDir w) (baseTemplateDir w) (clock w).

Definition with_forwarded (l : list Req) (w : World C G P) : World C G P :=
  mkWorld (res w) l (templateCache w) (gfs w) (workerPool w)
          (templateDir w) (baseTemplateDir w) (clock w).

Definition with_templateCache (c : C) (w : World C G P) : World C G P :=
  mkWorld (res w) (forwarded w) c (gfs w) (workerPool w)
          (templateDir w) (baseTemplateDir w) (clock w).

Definition with_gfs (g : G) (w : World C G P) : World C G P :=
  mkWorld (res w) (forwarded w) (templateCache w) g (workerPool w)
          (templateDir w) (baseTemplateDir w) (clock w).

Definition with_workerPool (p : P) (w : World C G P) : World C G P :=
  mkWorld (res w) (forwarded w) (templateCache w) (gfs w) p
          (templateDir w) (baseTemplateDir w) (clock w).

Definition with_templateDir (d : gmap string Node) (w : World C G P)
  : World C G P :=
  mkWorld (res w) (forwarded w) (templateCache w) (gfs w) (workerPool w)
          d (baseTemplateDir w) (clock w).

(** A synchronous [fs] call on the template directory: the new
    directory, or the exception. *)
Definition fs_update (o : option Node) (w : World C G P)
  : Outcome unit * World C G P :=
  match o with
  | Some (Dir m) => (Resolved tt, with_templateDir m w)
  | _ => (Rejected "fs error", w)
  end.

(** One call, on the world. *)
Definition perform {X : Type} (c : Call X) (w : World C G P)
  : X * World C G P :=
  match c in Call X return X * World C G P with
  | CacheKeys =>
      let '(o, c') := cache_keys (templateCache w) in (o, with_templateCache c' w)
  | CacheGet file =>
      let '(o, c') := cache_get file (templateCache w) in (o, with_templateCache c' w)
  | CacheHas file =>
      let '(o, c') := cache_has file (templateCache w) in (o, with_templateCache c' w)
  | CacheSet file content =>
      let '(o, c') := cache_set file content (templateCache w) in
      (o, with_templateCache c' w)
  | CacheRemove file =>
      let '(o, c') := cache_remove file (templateCache w) in
      (o, with_templateCache c' w)
  | CacheClear => (tt, with_templateCache (cache_clear (templateCache w)) w)
  | GfsRepoName => (repoName (gfs w), w)
  | GfsGetStatus => (getStatus (gfs w), w)
  | GfsGetBranches => (getBranches (gfs w), w)
  | GfsCreateBranch name baseBranch =>
      let '(o, g') := createBranch name baseBranch (gfs w) in (o, with_gfs g' w)
  | GfsCheckoutBranch name =>
      let '(o, g') := checkoutBranch name (gfs w) in (o, with_gfs g' w)
  | GfsCommitAllChanges message name email =>
      let '(o, g') := commitAllChanges message name email (gfs w) in
      (o, with_gfs g' w)
  | GfsReposHandle req =>
      let '(g', r') := repos_handle req (gfs w) (res w) in
      (tt, with_res r' (with_gfs g' w))
  | PoolBroadcast m => (tt, with_workerPool (broadcast m (workerPool w)) w)
  | PoolExec job =>
      let '(result, p') := exec job (workerPool w) in (result, with_workerPool p' w)
  | Next req => (tt, with_forwarded (forwarded w ++ [req]) w)
  | ResStatus code => (tt, with_res (res_status code (res w)) w)
  | ResJson p => (tt, with_res (res_send p (res w)) w)
  | ResEnd text =>
      (tt, with_res (res_send (from_option Text Empty text) (res w)) w)
  | DateGetTime => (clock w, w)
  | EnsureDirSync p => fs_update (ensureDir p (Dir (templateDir w))) w
  | ReaddirSync p =>
      match readdir p (Dir (templateDir w)) with
      | Some names => (Resolved names, w)
      | None => (Rejected "ENOENT", w)
      end
  | RenameSync src dst => fs_update (rename src dst (Dir (templateDir w))) w
  | NcpBaseTemplates =>
      let '(err, d) := ncp (baseTemplateDir w) (templateDir w) in
      (err, with_templateDir d w)
  end.

(** A handler program from a world: its result, the world it leaves
    and the calls it made, in order, with their answers. *)
Fixpoint run {A : Type} (p : Prog A) (w : World C G P)
  : A * World C G P * list Event :=
  match p with
  | Ret a => (a, w, [])
  | Do c k =>
      let '(x, w1) := perform c w in
      let '(a, w2, t) := run (k x) w1 in
      (a, w2, Ev c x :: t)
  end.

(** A request is served on a response of its own. *)
Definition serve {A : Type} (handler : Req → Prog A) (req : Req)
           (w : World C G P) : A * World C G P * list Event :=
  run (handler req) (with_res fresh_res w).

Definition world_of {A : Type} (r : A * World C G P * list Event)
  : World C G P := r.1.2.
Definition trace_of {A : Type} (r : A * World C G P * list Event)
  : list Event := r.2.

(** What a branch checkout through the API does to the cache and the
    pool: [templateCache.clear()], then the [templatesUpdated]
    broadcast. *)
Definition clears_and_broadcasts {A : Type} (w : World C G P)
           (r : A * World C G P * list Event) : Prop :=
  templateCache (world_of r) = cache_clear (templateCache w) ∧
  workerPool (world_of r) = broadcast templatesUpdated (workerPool w) ∧
  ∃ before after : list Event,
    trace_of r =
    before ++ Ev CacheClear tt :: Ev (PoolBroadcast templatesUpdated) tt :: after.

(** What is asked of a conversion route that submits [job req]: the
    status is the worker's, and the body is the whole reply under
    version 1.0, else the inner document of a 200 reply and the
    whole reply otherwise. *)
Definition follows_worker (handler : Req → Prog unit) (job : Req → Job)
  : Prop :=
  ∀ req w reply p',
    exec (job req) (workerPool w) = (reply, p') →
    let answer := sent (res (world_of (serve handler req w))) in
    (api_version req = Some "1.0" →
     answer = Some (status reply, Document (JObj (resultMsg reply)))) ∧
    (api_version req ≠ Some "1.0" → status reply = 200 →
     answer = Some (200, Document (prop (resultMsg reply) "fhirResource"))) ∧
    (api_version req ≠ Some "1.0" → status reply ≠ 200 →
     answer = Some (status reply, Document (JObj (resultMsg reply)))).

End Semantics.

(** ** Reading a trace *)

Definition is_broadcast (e : Event) : bool :=
  match e with
  | Ev c _ => match c with PoolBroadcast _ => true | _ => false end
  end.

(** The calls that change what the template cache holds. *)
Definition is_cache_update (e : Event) : bool :=
  match e with
  | Ev c _ =>
      match c with
      | CacheSet _ _ | CacheRemove _ | CacheClear => true
      | _ => false
      end
  end.

Definition is_cache_clear (e : Event) : bool :=
  match e with
  | Ev c _ => match c with CacheClear => true | _ => false end
  end.


Definition is_response (e : Event) : bool :=
  match e with
  | Ev c _ =>
      match c with
      | ResStatus _ | ResJson _ | ResEnd _ => true
      | _ => false
      end
  end.

(** A call that neither updates the cache, nor broadcasts, nor writes
    to the response. *)
Definition quiet (e : Event) : Prop :=
  is_cache_update e = false ∧ is_broadcast e = false ∧ is_response e = false.

(** Every entry of the directory [d] is found, as it was, in the folder
    [temp] of the directory [d']. *)
Definition all_moved_aside (temp : string) (d d' : gmap string Node) : Prop :=
  ∀ fl x, d !! fl = Some x → node_at [temp; fl] (Dir d') = Some x.

(** ** The collaborators as the specification describes them *)

(** Modelled from the spec: the Directory Cache, a read-through and
    write-through cache over a directory of named text files
    (the module [lib/fsCache/cache.js], required by the routes).  [get]
    answers from the cache and reads the backing directory on a miss,
    failing when the name is absent; [has] is the existence check; [set]
    writes through and updates the entry, answering whether the name
    existed; [remove] deletes from both and fails on an absent name;
    [clear] forgets every entry and leaves the files alone.  The spec
    says that a write can fail and not when: the names whose file cannot
    be written are a field of the model. *)
Record DirectoryCache : Type := mkDirectoryCache {
  backing : gmap string string;
  cached : gmap string string;
  unwritable : gset string
}.

Definition dc_keys (c : DirectoryCache) : Outcome (list string) * DirectoryCache :=
  (Resolved (map fst (map_to_list (backing c))), c).

Definition dc_get (file : string) (c : DirectoryCache)
  : Outcome string * DirectoryCache :=
  match cached c !! file with
  | Some content => (Resolved content, c)
  | None =>
      match backing c !! file with
      | Some content =>
          (Resolved content,
           mkDirectoryCache (backing c) (<[file := content]> (cached c)) (unwritable c))
      | None => (Rejected "NotFound", c)
      end
  end.

Definition dc_exists (file : string) (c : DirectoryCache) : bool :=
  bool_decide (is_Some (cached c !! file) ∨ is_Some (backing c !! file)).

Definition dc_has (file : string) (c : DirectoryCache) : bool * DirectoryCache :=
  (dc_exists file c, c).

Definition dc_set (file content : string) (c : DirectoryCache)
  : Outcome bool * DirectoryCache :=
  if bool_decide (file ∈ unwritable c) then (Rejected "WriteError", c)
  else (Resolved (dc_exists file c),
        mkDirectoryCache (<[file := content]> (backing c))
                         (<[file := content]> (cached c)) (unwritable c)).

Definition dc_remove (file : string) (c : DirectoryCache)
  : Outcome unit * DirectoryCache :=
  if dc_exists file c then
    (Resolved tt,
     mkDirectoryCache (delete file (backing c)) (delete file (cached c)) (unwritable c))
  else (Rejected "NotFound", c).

Definition dc_clear (c : DirectoryCache) : DirectoryCache :=
  mkDirectoryCache (backing c) ∅ (unwritable c).

#[global] Instance DirectoryCache_FsCache : FsCache DirectoryCache := {|
  cache_keys := dc_keys;
  cache_get := dc_get;
  cache_has := dc_has;
  cache_set := dc_set;
  cache_remove := dc_remove;
  cache_clear := dc_clear
|}.

Record Commit : Type := mkCommit {
  paths : list string;
  message : Json;
  authorName : Json;
  authorEmail : Json
}.

(** Modelled from the spec: the Version-Controlled Store over one
    repository (the module [lib/git-filesystem/git-filesystem.js],
    required by the routes).  [createBranch] fails on an existing name or an
    unknown base and does not switch; [checkoutBranch] fails on an
    unknown name and otherwise switches, resetting the working set to
    the committed state; [commitAllChanges] records the changed paths as
    one commit; the wire protocol is answered for the one repository
    name.  The spec says that operations can lose a race with another
    client and not when: the failure the next branch or commit operation
    meets, if any, is a field of the model. *)
Record Repository : Type := mkRepository {
  repository : string;
  branches : list Branch;
  head : string;
  changes : list string;
  history : list Commit;
  race : option string
}.

Definition known (r : Repository) (branch : string) : bool :=
  existsb (String.eqb branch) (map name (branches r)).

Definition repo_createBranch (nm base : Json) (r : Repository)
  : Outcome unit * Repository :=
  match race r, nm with
  | Some reason, _ => (Rejected reason, r)
  | None, JStr n =>
      let from :=
        match base with
        | JStr b => if known r b then Some b else None
        | JUndefined | JNull => Some (head r)
        | _ => None
        end in
      match from with
      | Some b =>
          if known r n then (Rejected "Conflict", r)
          else (Resolved tt,
                mkRepository (repository r) (branches r ++ [mkBranch n (Some b)])
                             (head r) (changes r) (history r) (race r))
      | None => (Rejected "Conflict", r)
      end
  | None, _ => (Rejected "Conflict", r)
  end.

Definition repo_checkoutBranch (nm : Json) (r : Repository)
  : Outcome unit * Repository :=
  match race r, nm with
  | Some reason, _ => (Rejected reason, r)
  | None, JStr n =>
      if known r n then
        (Resolved tt,
         mkRepository (repository r) (branches r) n [] (history r) (race r))
      else (Rejected "NotFound", r)
  | None, _ => (Rejected "NotFound", r)
  end.

Definition repo_commitAllChanges (msg author email : Json) (r : Repository)
  : Outcome unit * Repository :=
  match race r with
  | Some reason => (Rejected reason, r)
  | None =>
      (Resolved tt,
       mkRepository (repository r) (branches r) (head r) []
                    (history r ++ [mkCommit (changes r) msg author email])
                    (race r))
  end.

(** The wire protocol: a request for the one repository is answered,
    any other is not found. *)
Definition repo_handle (req : Req) (r : Repository) (response : Res)
  : Repository * Res :=
  if String.prefix ("/" +:+ repository r +:+ "/") (url req)
  then (r, res_send (Text "pkt-line") response)
  else (r, res_send (Text "not found") (res_status 404 response)).

#[global] Instance Repository_GitFilesystem : GitFilesystem Repository := {|
  repoName := repository;
  getStatus := changes;
  getBranches := branches;
  createBranch := repo_createBranch;
  checkoutBranch := repo_checkoutBranch;
  commitAllChanges := repo_commitAllChanges;
  repos_handle := repo_handle
|}.

(** Modelled from the spec: the Process Pool Dispatcher
    (the module [lib/workers/workerPool.js], required by the routes).  A
    broadcast reaches the mailbox of every worker; a job is answered with
    what the conversion engine, a pure function of the job, reports. *)
Record Pool : Type := mkPool {
  mailboxes : list (list Message);
  engine : Job → Result
}.

Definition pool_broadcast (m : Message) (p : Pool) : Pool :=
  mkPool (map (fun box => box ++ [m]) (mailboxes p)) (engine p).

Definition pool_exec (job : Job) (p : Pool) : Result * Pool :=
  (engine p job, p).

#[global] Instance Pool_WorkerPool : WorkerPool Pool := {|
  broadcast := pool_broadcast;
  exec := pool_exec
|}.

(** A copy that succeeds, the source entries replacing the destination
    entries of the same name, and a copy that fails on its first file. *)
#[global] Instance ncp_ok : Ncp :=
  fun source destination => (JNull, source ∪ destination).

Definition ncp_fails : Ncp :=
  fun source destination =>
    (JArr [JObj [("code", JStr "ENOENT");
                 ("message", JStr "ENOENT: no such file or directory")]],
     destination).

(** The requests the git handler hands to the git server: ref
    discovery, upload-pack and receive-pack. *)
Definition protocol_request (u : string) : Prop :=
  String.prefix "/info" u = true ∨ u = "/git-upload-pack" ∨ u = "/git-receive-pack".

(** ** A small installation to run the routes on *)

Definition sample_cache : DirectoryCache :=
  mkDirectoryCache {[ "ADT_A01.hbs" := "{{! v2 }}" ]}
                   {[ "ADT_A01.hbs" := "{{! v1 }}" ]}
                   {[ "locked.hbs" ]}.

Definition sample_repository : Repository :=
  mkRepository "templates"
               [mkBranch "master" None; mkBranch "dev" (Some "master")]
               "master" ["ADT_A01.hbs"] [] None.

Definition sample_engine (job : Job) : Result :=
  match job with
  | ConvertHl7Template _ "ADT_A01.hbs" =>
      mkResult 200 [("fhirResource", JObj [("resourceType", JStr "Bundle")]);
                    ("unusedSegments", JArr [])]
  | _ => mkResult 404 [("error", JObj [("code", JStr "NotFound")])]
  end.

Definition sample_pool : Pool := mkPool [[]; [constantsUpdated "{}"]] sample_engine.

Definition sample_templateDir : gmap string Node :=
  {[ ".git" := Dir {[ "HEAD" := File "ref: refs/heads/master" ]};
     "ADT_A01.hbs" := File "{{! v2 }}";
     "Resources" := Dir {[ "Patient.hbs" := File "{{! patient }}" ]} ]}.

Definition sample_baseTemplateDir : gmap string Node :=
  {[ "ADT_A01.hbs" := File "{{! base }}" ]}.

Definition sample_world : World DirectoryCache Repository Pool :=
  mkWorld fresh_res [] sample_cache sample_repository sample_pool
          sample_templateDir sample_baseTemplateDir 1583366400000.

Definition request (u : string) (b : Body) (file : string) (v : option string)
  : Req := mkReq u b file v.

Definition push_request : Req := request "/git-receive-pack" (BodyJson []) "" None.

Definition head_request : Req := request "/HEAD" (BodyJson []) "" None.

Definition checkout_request (branch : Json) : Req :=
  request "" (BodyJson [("name", branch)]) "" None.


(** The sample installation while another client holds the repository. *)
Definition racing_world : World DirectoryCache Repository Pool :=
  with_gfs (mkRepository "templates" (branches sample_repository) "master"
                         ["ADT_A01.hbs"] [] (Some "index.lock")) sample_world.


Definition put_request (file content : string) : Req :=
  request "" (BodyText content) file None.

Definition get_request (file : string) : Req :=
  request "" (BodyJson []) file None.

Definition convert_request (template : string) (v : option string) : Req :=
  request "" (BodyText "MSH|^~\&|SIMHOSP|SFAC|RAPP|RFAC|20200508131015||ADT^A01")
          template v.

Definition reset_request : Req := request "" (BodyJson []) "" None.

(** ** The template listing, and more ways to read a run *)

(** [app.get('/api/templates', ...)]. *)
Definition get_templates (req : Req) : Prog unit :=
  listed ← call CacheKeys;
  match listed with
  | Resolved files =>
      call (ResJson (Document
              (JObj [("templates",
                      JArr (map (fun f => JObj [("templateName", JStr f)]) files))])))
  | Rejected _ =>
      call (ResStatus 404);;
      call (ResJson (errorMessage NotFound "Unable to access templates location"))
  end.

(** What a client reads back from the listing: the [templateName] of
    every item of [templates]. *)
Definition templateName_of (item : Json) : option string :=
  match item with
  | JObj fields =>
      match prop fields "templateName" with
      | JStr s => Some s
      | _ => None
      end
  | _ => None
  end.

Definition listed_templates (p : Payload) : option (list string) :=
  match p with
  | Document (JObj fields) =>
      match prop fields "templates" with
      | JArr items => mapM templateName_of items
      | _ => None
      end
  | _ => None
  end.

(** The calls that send the response. *)
Definition is_send (e : Event) : bool :=
  match e with
  | Ev c _ => match c with ResJson _ | ResEnd _ => true | _ => false end
  end.

(** The branch a call asks the store to check out. *)
Definition checkout_arg (e : Event) : option Json :=
  match e with
  | Ev c _ => match c with GfsCheckoutBranch v => Some v | _ => None end
  end.

(** The source and destination of a rename. *)
Definition renamed (e : Event) : option (Path * Path) :=
  match e with
  | Ev c _ => match c with RenameSync src dst => Some (src, dst) | _ => None end
  end.

(** What [ncp] handed to its callback. *)
Definition copy_answer (e : Event) : option Json :=
  match e with
  | Ev c a =>
      match c in Call X return X → option Json with
      | NcpBaseTemplates => fun err => Some err
      | _ => fun _ => None
      end a
  end.

(** What matters to a client and to the workers in a run: the broadcasts
    and the sends, in the order they are made. *)
Inductive Mark : Type := Broadcast | Sent.

Definition mark (e : Event) : option Mark :=
  match e with
  | Ev c _ =>
      match c with
      | PoolBroadcast _ => Some Broadcast
      | ResJson _ | ResEnd _ => Some Sent
      | _ => None
      end
  end.


Section Contracts.
Context {C G P : Type}.
Context `{!FsCache C, !GitFilesystem G, !WorkerPool P, !Ncp}.

(** The route answers every request with exactly one send, under one of
    the statuses [codes]. *)
Definition answers_once (handler : Req → Prog unit) (codes : list Z) : Prop :=
  ∀ req w,
    let r := serve handler req w in
    length (List.filter is_send (trace_of r)) = 1%nat ∧
    ∃ code p, sent (res (world_of r)) = Some (code, p) ∧ code ∈ codes.

(** In every run the route makes at most one broadcast and at most one
    send, and a broadcast only when a send follows it. *)
Definition broadcasts_before_answering {A : Type} (handler : Req → Prog A)
  : Prop :=
  ∀ req w,
    omap mark (trace_of (serve handler req w))
    ∈ [[]; [Sent]; [Broadcast; Sent]].

(** No run of the route calls [set], [remove] or [clear] on the template
    cache, and none broadcasts to the workers. *)
Definition never_invalidates {A : Type} (handler : Req → Prog A) : Prop :=
  ∀ req w,
    Forall (fun e => is_cache_update e = false ∧ is_broadcast e = false)
           (trace_of (serve handler req w)).

End Contracts.


(** * Properties of the routes *)

(** ** The git wire-protocol handler *)

Section GitRoute.
Context {C G P : Type}.
Context `{!FsCache C, !GitFilesystem G, !WorkerPool P, !Ncp}.
Implicit Types (w : World C G P) (req : Req).

Lemma git_passes_on_shape req w :
  String.prefix "/info" (url req) = false →
  url req ≠ "/git-upload-pack" →
  url req ≠ "/git-receive-pack" →
  run (git req) w =
  (req, with_forwarded (forwarded w ++ [req]) w, [Ev (Next req) tt]).
Proof.
  intros Hinfo Hup Hrp. unfold git.
  rewrite Hinfo. apply String.eqb_neq in Hup, Hrp. rewrite Hup, Hrp.
  reflexivity.
Qed.

Lemma git_protocol_shape req w :
  protocol_request (url req) →
  run (git req) w =
  let req' := set_url ("/" +:+ repoName (gfs w) +:+ url req) req in
  let '(g', r') := repos_handle req' (gfs w) (res w) in
  (req',
   with_workerPool (broadcast templatesUpdated (workerPool w))
     (with_res r' (with_gfs g' w)),
   [Ev GfsRepoName (repoName (gfs w));
    Ev (GfsReposHandle req') tt;
    Ev (PoolBroadcast templatesUpdated) tt]).
Proof.
  intros Hreq. unfold git.
  assert (negb (String.prefix "/info" (url req))
          && negb (url req =? "/git-upload-pack")%string
          && negb (url req =? "/git-receive-pack")%string = false) as ->.
  { destruct Hreq as [-> | [-> | ->]]; [reflexivity | |].
    - rewrite String.eqb_refl. apply andb_false_iff. left. apply andb_false_r.
    - rewrite String.eqb_refl. apply andb_false_r. }
  simpl. destruct (repos_handle _ _ _) as [g' r']. reflexivity.
Qed.

Lemma protocol_request_dec (u : string) :
  protocol_request u ∨
  (String.prefix "/info" u = false
   ∧ u ≠ "/git-upload-pack" ∧ u ≠ "/git-receive-pack").
Proof.
  unfold protocol_request.
  destruct (String.prefix "/info" u); [by left; left |].
  destruct (decide (u = "/git-upload-pack")); [by left; right; left |].
  destruct (decide (u = "/git-receive-pack")); [by left; right; right |].
  by right.
Qed.

(** C8: a request under [/git] whose sub-path does not start with
    [/info] and is neither [/git-upload-pack] nor [/git-receive-pack]
    is passed to the next handler as it came: the handler's only call
    is [next()], the request is the one it received, no response is
    written and nothing else in the world changes. *)
Theorem git_passes_through req w :
  String.prefix "/info" (url req) = false →
  url req ≠ "/git-upload-pack" →
  url req ≠ "/git-receive-pack" →
  serve git req w =
  (req, with_forwarded (forwarded w ++ [req]) (with_res fresh_res w),
   [Ev (Next req) tt]).
Proof.
  intros Hinfo Hup Hrp. unfold serve.
  by rewrite git_passes_on_shape.
Qed.

(** C9: on every protocol request under [/git] (ref discovery and
    upload-pack as much as receive-pack) the handler broadcasts
    [templatesUpdated] to the worker pool; and on no request at all
    does it call [set], [remove] or [clear] on the template cache,
    which it leaves as it found it. *)
Theorem git_broadcasts_and_keeps_cache req w :
  let r := serve git req w in
  (protocol_request (url req) →
   workerPool (world_of r) = broadcast templatesUpdated (workerPool w) ∧
   Ev (PoolBroadcast templatesUpdated) tt ∈ trace_of r) ∧
  templateCache (world_of r) = templateCache w ∧
  Forall (fun e => is_cache_update e = false) (trace_of r).
Proof.
  unfold serve.
  destruct (protocol_request_dec (url req)) as [Hreq | (Hinfo & Hup & Hrp)].
  - rewrite (git_protocol_shape _ _ Hreq). cbn zeta.
    destruct (repos_handle _ _ _) as [g' r']. cbn.
    split; [intros _; split; [done | set_solver] |].
    split; [done | by repeat constructor].
  - rewrite git_passes_on_shape by done. cbn.
    split; [| split; [done | by repeat constructor]].
    intros [Hp | [Hp | Hp]]; congruence.
Qed.

(** C1, as amended: a push ([/git-receive-pack]) is handed to the git
    server under the repository's name and followed by the
    [templatesUpdated] broadcast, the broadcast a branch checkout
    makes; these are the handler's only calls, and the template cache
    is not cleared: it is left as it was. *)
Theorem git_push_broadcasts_without_clear req w :
  url req = "/git-receive-pack" →
  let r := serve git req w in
  trace_of r =
    [Ev GfsRepoName (repoName (gfs w));
     Ev (GfsReposHandle
           (set_url ("/" +:+ repoName (gfs w) +:+ "/git-receive-pack") req)) tt;
     Ev (PoolBroadcast templatesUpdated) tt] ∧
  workerPool (world_of r) = broadcast templatesUpdated (workerPool w) ∧
  templateCache (world_of r) = templateCache w.
Proof.
  intros Hurl. unfold serve.
  rewrite git_protocol_shape by (right; right; exact Hurl).
  cbn zeta. rewrite Hurl. destruct (repos_handle _ _ _) as [g' r']. by cbn.
Qed.

End GitRoute.

Lemma git_passes_through_witness :
  serve git head_request sample_world =
  (head_request, with_forwarded [head_request] sample_world,
   [Ev (Next head_request) tt]).
Proof.
  apply (git_passes_through head_request sample_world);
    [reflexivity | discriminate | discriminate].
Defined.

Lemma git_broadcasts_and_keeps_cache_witness :
  protocol_request "/info/refs?service=git-upload-pack" ∧
  mailboxes (workerPool (world_of
    (serve git (request "/info/refs?service=git-upload-pack" (BodyJson []) "" None)
           sample_world)))
  = [[templatesUpdated]; [constantsUpdated "{}"; templatesUpdated]].
Proof.
  split; [by left |].
  pose proof (git_broadcasts_and_keeps_cache
                (request "/info/refs?service=git-upload-pack" (BodyJson []) "" None)
                sample_world) as [Hpool _].
  destruct Hpool as [Hpool _]; [by left |].
  rewrite Hpool. reflexivity.
Defined.

(** The push of C1 on the sample installation: the cache still holds
    the entry it held, so it was not cleared as a checkout clears it. *)
Lemma git_push_leaves_cache :
  ¬ clears_and_broadcasts sample_world (serve git push_request sample_world).
Proof.
  intros (Hcache & _). vm_compute in Hcache.
  discriminate Hcache.
Qed.

Lemma git_push_broadcasts_without_clear_witness :
  url push_request = "/git-receive-pack" ∧
  templateCache (world_of (serve git push_request sample_world)) = sample_cache.
Proof.
  split; [reflexivity |].
  apply (git_push_broadcasts_without_clear push_request sample_world).
  reflexivity.
Defined.

(** ** Branch checkout and commit *)

Section StoreRoutes.
Context {C G P : Type}.
Context `{!FsCache C, !GitFilesystem G, !WorkerPool P, !Ncp}.
Implicit Types (w : World C G P) (req : Req).

Lemma checkout_no_name req w :
  truthy (body_field (body req) "name") = false →
  run (post_checkout req) w =
  (tt,
   with_res (res_send (errorMessage BadRequest "Branch name required")
                      (res_status 400 (res w))) w,
   [Ev (ResStatus 400) tt;
    Ev (ResJson (errorMessage BadRequest "Branch name required")) tt]).
Proof. intros Hname. unfold post_checkout. rewrite Hname. reflexivity. Qed.

Lemma checkout_unknown req w :
  truthy (body_field (body req) "name") = true →
  includes (map name (getBranches (gfs w))) (body_field (body req) "name") = false →
  run (post_checkout req) w =
  (tt,
   with_res (res_send (errorMessage NotFound "Branch not found")
                      (res_status 404 (res w))) w,
   [Ev GfsGetBranches (getBranches (gfs w));
    Ev (ResStatus 404) tt;
    Ev (ResJson (errorMessage NotFound "Branch not found")) tt]).
Proof.
  intros Hname Hinc. unfold post_checkout. rewrite Hname. simpl.
  rewrite Hinc. reflexivity.
Qed.

Lemma checkout_done req w g' :
  truthy (body_field (body req) "name") = true →
  includes (map name (getBranches (gfs w))) (body_field (body req) "name") = true →
  checkoutBranch (body_field (body req) "name") (gfs w) = (Resolved tt, g') →
  run (post_checkout req) w =
  (tt,
   with_res (res_send Empty (res_status 200 (res w)))
     (with_workerPool (broadcast templatesUpdated (workerPool w))
        (with_templateCache (cache_clear (templateCache w)) (with_gfs g' w))),
   [Ev GfsGetBranches (getBranches (gfs w));
    Ev (GfsCheckoutBranch (body_field (body req) "name")) (Resolved tt);
    Ev CacheClear tt;
    Ev (PoolBroadcast templatesUpdated) tt;
    Ev (ResStatus 200) tt;
    Ev (ResEnd None) tt]).
Proof.
  intros Hname Hinc Hco. unfold post_checkout. rewrite Hname. simpl.
  rewrite Hinc. simpl. rewrite Hco. reflexivity.
Qed.

Lemma checkout_failed req w reason g' :
  truthy (body_field (body req) "name") = true →
  includes (map name (getBranches (gfs w))) (body_field (body req) "name") = true →
  checkoutBranch (body_field (body req) "name") (gfs w) = (Rejected reason, g') →
  run (post_checkout req) w =
  (tt,
   with_res (res_send (errorMessage Conflict
                         ("Unable to checkout branch: " +:+ reason))
                      (res_status 409 (res w))) (with_gfs g' w),
   [Ev GfsGetBranches (getBranches (gfs w));
    Ev (GfsCheckoutBranch (body_field (body req) "name")) (Rejected reason);
    Ev (ResStatus 409) tt;
    Ev (ResJson (errorMessage Conflict
                   ("Unable to checkout branch: " +:+ reason))) tt]).
Proof.
  intros Hname Hinc Hco. unfold post_checkout. rewrite Hname. simpl.
  rewrite Hinc. simpl. rewrite Hco. reflexivity.
Qed.

(** C3: a checkout request whose body has no (truthy) [name] is
    answered 400 BadRequest; one that names a branch missing from
    [getBranches()] is answered 404 NotFound, with the template
    cache, the store, the template directory and the worker pool as
    they were and neither a cache update nor a broadcast among the
    calls; when the branch is listed and [checkoutBranch] resolves,
    the cache is cleared, [templatesUpdated] is broadcast and the
    answer is 200; when [checkoutBranch] rejects, the answer is 409
    Conflict, again without a cache update or a broadcast. *)
Theorem checkout_statuses req w :
  let nm := body_field (body req) "name" in
  let r := serve post_checkout req w in
  (truthy nm = false →
   sent (res (world_of r)) =
     Some (400, errorMessage BadRequest "Branch name required")) ∧
  (truthy nm = true → includes (map name (getBranches (gfs w))) nm = false →
   sent (res (world_of r)) = Some (404, errorMessage NotFound "Branch not found") ∧
   templateCache (world_of r) = templateCache w ∧
   gfs (world_of r) = gfs w ∧
   templateDir (world_of r) = templateDir w ∧
   workerPool (world_of r) = workerPool w ∧
   Forall (fun e => is_cache_update e = false ∧ is_broadcast e = false)
          (trace_of r)) ∧
  (truthy nm = true → includes (map name (getBranches (gfs w))) nm = true →
   ∀ g', checkoutBranch nm (gfs w) = (Resolved tt, g') →
   sent (res (world_of r)) = Some (200, Empty) ∧
   gfs (world_of r) = g' ∧
   clears_and_broadcasts w r) ∧
  (truthy nm = true → includes (map name (getBranches (gfs w))) nm = true →
   ∀ reason g', checkoutBranch nm (gfs w) = (Rejected reason, g') →
   sent (res (world_of r)) =
     Some (409, errorMessage Conflict ("Unable to checkout branch: " +:+ reason)) ∧
   templateCache (world_of r) = templateCache w ∧
   workerPool (world_of r) = workerPool w ∧
   Forall (fun e => is_cache_update e = false ∧ is_broadcast e = false)
          (trace_of r)).
Proof.
  intros nm r. subst nm r. unfold serve.
  split; [| split; [| split]].
  - intros Hname. by rewrite checkout_no_name.
  - intros Hname Hinc. rewrite checkout_unknown by done. cbn.
    repeat (split; [done |]). by repeat constructor.
  - intros Hname Hinc g' Hco. rewrite (checkout_done _ _ g') by done.
    unfold clears_and_broadcasts. cbn.
    repeat (split; [done |]).
    eexists [_; _], [_; _]. reflexivity.
  - intros Hname Hinc reason g' Hco.
    rewrite (checkout_failed _ _ reason g') by done. cbn.
    repeat (split; [done |]). by repeat constructor.
Qed.





End StoreRoutes.

Lemma checkout_statuses_witness :
  sent (res (world_of (serve post_checkout (request "" (BodyJson []) "" None)
                             sample_world)))
    = Some (400, errorMessage BadRequest "Branch name required")
  ∧ (sent (res (world_of (serve post_checkout (checkout_request (JStr "nope"))
                                sample_world)))
       = Some (404, errorMessage NotFound "Branch not found")
     ∧ templateCache (world_of (serve post_checkout (checkout_request (JStr "nope"))
                                      sample_world)) = sample_cache)
  ∧ (sent (res (world_of (serve post_checkout (checkout_request (JStr "dev"))
                                sample_world))) = Some (200, Empty)
     ∧ cached (templateCache (world_of
         (serve post_checkout (checkout_request (JStr "dev")) sample_world))) = ∅)
  ∧ sent (res (world_of (serve post_checkout (checkout_request (JStr "dev"))
                               racing_world)))
    = Some (409, errorMessage Conflict "Unable to checkout branch: index.lock").
Proof.
  split; [| split; [| split]].
  - apply (checkout_statuses (request "" (BodyJson []) "" None) sample_world).
    reflexivity.
  - destruct (checkout_statuses (checkout_request (JStr "nope")) sample_world)
      as (_ & H404 & _).
    destruct H404 as (Hsent & Hcache & _); [reflexivity | reflexivity |].
    split; [exact Hsent | exact Hcache].
  - destruct (checkout_statuses (checkout_request (JStr "dev")) sample_world)
      as (_ & _ & H200 & _).
    destruct (H200 eq_refl eq_refl
                (mkRepository "templates" (branches sample_repository) "dev" [] [] None)
                eq_refl) as (Hsent & _ & Hclear & _).
    split; [exact Hsent |]. rewrite Hclear. reflexivity.
  - destruct (checkout_statuses (checkout_request (JStr "dev")) racing_world)
      as (_ & _ & _ & H409).
    apply (H409 eq_refl eq_refl "index.lock" (gfs racing_world) eq_refl).
Defined.



(** ** Writing and reading a template *)

Section TemplateRoutes.
Context {C G P : Type}.
Context `{!FsCache C, !GitFilesystem G, !WorkerPool P, !Ncp}.
Implicit Types (w : World C G P) (req : Req).

Lemma put_written req w existed c1 previously c2 :
  cache_has (param req) (templateCache w) = (existed, c1) →
  cache_set (param req) (body_toString (body req)) c1 = (Resolved previously, c2) →
  run (put_template req) w =
  (tt,
   with_res (res_send Empty (res_status (if existed then 200 else 201) (res w)))
     (with_workerPool (broadcast templatesUpdated (workerPool w))
        (with_templateCache c2 w)),
   [Ev (CacheHas (param req)) existed;
    Ev (CacheSet (param req) (body_toString (body req))) (Resolved previously);
    Ev (PoolBroadcast templatesUpdated) tt;
    Ev (ResStatus (if existed then 200 else 201)) tt;
    Ev (ResEnd None) tt]).
Proof.
  intros Hhas Hset. unfold put_template. simpl. rewrite Hhas. simpl.
  rewrite Hset. reflexivity.
Qed.

Lemma put_refused req w existed c1 reason c2 :
  cache_has (param req) (templateCache w) = (existed, c1) →
  cache_set (param req) (body_toString (body req)) c1 = (Rejected reason, c2) →
  run (put_template req) w =
  (tt,
   with_res (res_send (errorMessage WriteError
                         ("Unable to write template " +:+ param req))
                      (res_status 403 (res w)))
     (with_templateCache c2 w),
   [Ev (CacheHas (param req)) existed;
    Ev (CacheSet (param req) (body_toString (body req))) (Rejected reason);
    Ev (ResStatus 403) tt;
    Ev (ResJson (errorMessage WriteError
                   ("Unable to write template " +:+ param req))) tt]).
Proof.
  intros Hhas Hset. unfold put_template. simpl. rewrite Hhas. simpl.
  rewrite Hset. reflexivity.
Qed.

(** C4: with [existed] the answer of the [has] check made before the
    write, a PUT whose [set] resolves is answered 200 when [existed]
    and 201 when not, and [templatesUpdated] is broadcast; a PUT whose
    [set] rejects is answered 403 WriteError. *)
Theorem put_statuses req w existed c1 :
  cache_has (param req) (templateCache w) = (existed, c1) →
  let r := serve put_template req w in
  (∀ previously c2,
     cache_set (param req) (body_toString (body req)) c1
       = (Resolved previously, c2) →
     sent (res (world_of r)) = Some (if existed then 200 else 201, Empty) ∧
     templateCache (world_of r) = c2 ∧
     workerPool (world_of r) = broadcast templatesUpdated (workerPool w) ∧
     Ev (PoolBroadcast templatesUpdated) tt ∈ trace_of r) ∧
  (∀ reason c2,
     cache_set (param req) (body_toString (body req)) c1
       = (Rejected reason, c2) →
     sent (res (world_of r)) =
       Some (403, errorMessage WriteError
                    ("Unable to write template " +:+ param req))).
Proof.
  intros Hhas r. subst r. unfold serve. split.
  - intros previously c2 Hset.
    rewrite (put_written _ _ existed c1 previously c2) by done. cbn.
    destruct existed; (repeat (split; [done |])); set_solver.
  - intros reason c2 Hset.
    by rewrite (put_refused _ _ existed c1 reason c2).
Qed.

(** C10: when the [set] of a PUT rejects, no call of the handler is a
    broadcast and the worker pool is left as it was; and in every run
    of the handler a broadcast comes later in the calls than a [set]
    of the template that resolved. *)
Theorem put_broadcasts_only_after_write req w :
  let r := serve put_template req w in
  let c1 := (cache_has (param req) (templateCache w)).2 in
  (∀ reason c2,
     cache_set (param req) (body_toString (body req)) c1
       = (Rejected reason, c2) →
     Forall (fun e => is_broadcast e = false) (trace_of r) ∧
     workerPool (world_of r) = workerPool w) ∧
  (∀ i e,
     trace_of r !! i = Some e → is_broadcast e = true →
     ∃ j previously,
       (j < i)%nat ∧
       trace_of r !! j =
         Some (Ev (CacheSet (param req) (body_toString (body req)))
                  (Resolved previously))).
Proof.
  intros r c1. subst r c1. unfold serve.
  destruct (cache_has (param req) (templateCache w)) as [existed c1] eqn:Hhas.
  assert (cache_has (param req) (templateCache (with_res fresh_res w))
          = (existed, c1)) as Hhas' by exact Hhas.
  cbn [snd].
  destruct (cache_set (param req) (body_toString (body req)) c1)
    as [[previously | reason] c2] eqn:Hset.
  - rewrite (put_written _ _ existed c1 previously c2) by done. cbn.
    split; [intros ? ? [=] |].
    intros i e Hi He. exists 1%nat, previously.
    split; [| reflexivity].
    destruct i as [| [| i]]; simpl in Hi; [| | lia];
      injection Hi as <-; discriminate He.
  - rewrite (put_refused _ _ existed c1 reason c2) by done. cbn.
    split.
    + intros _ _ _. split; [by repeat constructor | done].
    + intros i e Hi He.
      destruct i as [| [| [| [| i]]]]; simpl in Hi; try discriminate Hi;
        injection Hi as <-; discriminate He.
Qed.

End TemplateRoutes.

Lemma put_statuses_witness :
  sent (res (world_of (serve put_template (put_request "ADT_A01.hbs" "{{! v3 }}")
                             sample_world))) = Some (200, Empty)
  ∧ sent (res (world_of (serve put_template (put_request "ORU_R01.hbs" "{{! new }}")
                               sample_world))) = Some (201, Empty)
  ∧ sent (res (world_of (serve put_template (put_request "locked.hbs" "{{! new }}")
                               sample_world)))
    = Some (403, errorMessage WriteError "Unable to write template locked.hbs").
Proof.
  split; [| split].
  - destruct (put_statuses (put_request "ADT_A01.hbs" "{{! v3 }}") sample_world
                true sample_cache) as [Hok _]; [reflexivity |].
    edestruct Hok as [Hsent _]; [reflexivity |]. exact Hsent.
  - destruct (put_statuses (put_request "ORU_R01.hbs" "{{! new }}") sample_world
                false sample_cache) as [Hok _]; [reflexivity |].
    edestruct Hok as [Hsent _]; [reflexivity |]. exact Hsent.
  - destruct (put_statuses (put_request "locked.hbs" "{{! new }}") sample_world
                false sample_cache) as [_ Hrefused]; [reflexivity |].
    apply (Hrefused "WriteError" sample_cache). reflexivity.
Defined.

Lemma put_broadcasts_only_after_write_witness :
  mailboxes (workerPool (world_of
    (serve put_template (put_request "locked.hbs" "{{! new }}") sample_world)))
  = mailboxes sample_pool
  ∧ ∃ j previously,
      (j < 2)%nat ∧
      trace_of (serve put_template (put_request "ADT_A01.hbs" "{{! v3 }}")
                      sample_world) !! j
      = Some (Ev (CacheSet "ADT_A01.hbs" "{{! v3 }}") (Resolved previously)).
Proof.
  split.
  - destruct (put_broadcasts_only_after_write
                (put_request "locked.hbs" "{{! new }}") sample_world) as [Hrefused _].
    destruct (Hrefused "WriteError" sample_cache) as [_ Hpool]; [reflexivity |].
    by rewrite Hpool.
  - destruct (put_broadcasts_only_after_write
                (put_request "ADT_A01.hbs" "{{! v3 }}") sample_world) as [_ Hafter].
    apply (Hafter 2%nat (Ev (PoolBroadcast templatesUpdated) tt)); reflexivity.
Defined.

(** ** A template written through the cache is read back *)

Section RoundTrip.
Context {G P : Type}.
Context `{!GitFilesystem G, !WorkerPool P, !Ncp}.
Implicit Types (w : World DirectoryCache G P).

Lemma dc_get_after_set file content c previously c' :
  dc_set file content c = (Resolved previously, c') →
  dc_get file c' = (Resolved content, c').
Proof.
  unfold dc_set. case_bool_decide; [done |].
  intros [= _ <-]. unfold dc_get. cbn. by rewrite lookup_insert_eq.
Qed.

(** C7 (over the cache modelled from the spec): when the write of
    template [N] is not refused, a PUT of the text [content] under [N]
    leaves [content] under [N] both in the cache and in the backing
    directory, and a GET of [N] served next through the same cache is
    answered 200 with exactly [content]. *)
Theorem put_then_get_round_trip w N content put get :
  param put = N → body put = BodyText content → param get = N →
  N ∉ unwritable (templateCache w) →
  let w1 := world_of (serve put_template put w) in
  cached (templateCache w1) !! N = Some content ∧
  backing (templateCache w1) !! N = Some content ∧
  sent (res (world_of (serve get_template get w1))) = Some (200, Text content).
Proof.
  intros HN Hbody HN' Hw. unfold serve, put_template, get_template.
  rewrite HN, Hbody, HN'. cbn. unfold dc_set. cbn.
  rewrite bool_decide_eq_false_2 by done. cbn.
  unfold dc_get. cbn. rewrite !lookup_insert_eq. cbn. done.
Qed.

End RoundTrip.

Lemma put_then_get_round_trip_witness :
  ("ADT_A01.hbs" ∉ unwritable sample_cache)
  ∧ sent (res (world_of
       (serve get_template (get_request "ADT_A01.hbs")
          (world_of (serve put_template (put_request "ADT_A01.hbs" "{{! v3 }}")
                           sample_world)))))
    = Some (200, Text "{{! v3 }}").
Proof.
  assert ("ADT_A01.hbs" ∉ unwritable sample_cache) as Hwritable.
  { apply (bool_decide_eq_false_1 ("ADT_A01.hbs" ∈ unwritable sample_cache)).
    reflexivity. }
  split; [exact Hwritable |].
  apply (put_then_get_round_trip sample_world "ADT_A01.hbs" "{{! v3 }}"
           (put_request "ADT_A01.hbs" "{{! v3 }}") (get_request "ADT_A01.hbs")
           eq_refl eq_refl eq_refl Hwritable).
Defined.

(** ** Conversion *)

Section ConversionRoutes.
Context {C G P : Type}.
Context `{!FsCache C, !GitFilesystem G, !WorkerPool P, !Ncp}.
Implicit Types (w : World C G P) (req : Req).

Lemma convert_hl7_run req w :
  run (post_convert_hl7 req) w =
  let job := ConvertHl7 (body_field (body req) "messageBase64")
                        (body_field (body req) "templateBase64")
                        (body_field (body req) "replacementDictionaryBase64")
                        (body_field (body req) "templatesMapBase64") in
  let '(reply, p') := exec job (workerPool w) in
  let doc :=
    if bool_decide (api_version req = Some "1.0") then JObj (resultMsg reply)
    else if status reply =? 200 then prop (resultMsg reply) "fhirResource"
         else JObj (resultMsg reply) in
  (tt,
   with_res (res_send (Document doc) (res_status (status reply) (res w)))
            (with_workerPool p' w),
   [Ev (PoolExec job) reply;
    Ev (ResStatus (status reply)) tt;
    Ev (ResJson (Document doc)) tt]).
Proof.
  unfold post_convert_hl7. cbn zeta. simpl.
  destruct (exec _ (workerPool w)) as [reply p']. simpl.
  destruct (bool_decide (api_version req = Some "1.0")); [reflexivity |].
  destruct (status reply =? 200); reflexivity.
Qed.

Lemma convert_hl7_template_run req w :
  run (post_convert_hl7_template req) w =
  let job := ConvertHl7Template (body_toString (body req)) (param req) in
  let '(reply, p') := exec job (workerPool w) in
  let doc :=
    if bool_decide (api_version req = Some "1.0") then JObj (resultMsg reply)
    else if status reply =? 200 then prop (resultMsg reply) "fhirResource"
         else JObj (resultMsg reply) in
  (tt,
   with_res (res_send (Document doc) (res_status (status reply) (res w)))
            (with_workerPool p' w),
   [Ev (PoolExec job) reply;
    Ev (ResStatus (status reply)) tt;
    Ev (ResJson (Document doc)) tt]).
Proof.
  unfold post_convert_hl7_template. cbn zeta. simpl.
  destruct (exec _ (workerPool w)) as [reply p']. simpl.
  destruct (bool_decide (api_version req = Some "1.0")); [reflexivity |].
  destruct (status reply =? 200); reflexivity.
Qed.

(** C5: on both conversion routes the response goes out under the
    status the worker reported; its body is the worker's whole
    [resultMsg] when [api-version] is [1.0], and otherwise
    [resultMsg.fhirResource] when the status is 200 and the whole
    [resultMsg] when it is not. *)
Theorem conversion_reply_follows_worker :
  follows_worker post_convert_hl7
    (fun req => ConvertHl7 (body_field (body req) "messageBase64")
                           (body_field (body req) "templateBase64")
                           (body_field (body req) "replacementDictionaryBase64")
                           (body_field (body req) "templatesMapBase64")) ∧
  follows_worker post_convert_hl7_template
    (fun req => ConvertHl7Template (body_toString (body req)) (param req)).
Proof.
  split; intros req w reply p' Hexec; unfold serve;
    [rewrite convert_hl7_run | rewrite convert_hl7_template_run];
    cbn zeta;
    change (workerPool (with_res fresh_res w)) with (workerPool w);
    rewrite Hexec; cbn.
  all: repeat split.
  all: try (intros ->; reflexivity).
  all: intros Hv Hs; rewrite bool_decide_eq_false_2 by done.
  all: try (rewrite Hs; reflexivity).
  all: by apply Z.eqb_neq in Hs as ->.
Qed.

End ConversionRoutes.

Lemma conversion_reply_follows_worker_witness :
  sent (res (world_of (serve post_convert_hl7_template
                             (convert_request "ADT_A01.hbs" None) sample_world)))
    = Some (200, Document (JObj [("resourceType", JStr "Bundle")]))
  ∧ sent (res (world_of (serve post_convert_hl7_template
                               (convert_request "ADT_A01.hbs" (Some "1.0"))
                               sample_world)))
    = Some (200, Document (JObj [("fhirResource", JObj [("resourceType", JStr "Bundle")]);
                                 ("unusedSegments", JArr [])]))
  ∧ sent (res (world_of (serve post_convert_hl7_template
                               (convert_request "missing.hbs" None) sample_world)))
    = Some (404, Document (JObj [("error", JObj [("code", JStr "NotFound")])])).
Proof.
  destruct (@conversion_reply_follows_worker
              DirectoryCache Repository Pool _ _ _ _) as [_ Hroute].
  split; [| split].
  - edestruct (Hroute (convert_request "ADT_A01.hbs" None) sample_world)
      as (_ & Hinner & _); [reflexivity |].
    apply Hinner; [discriminate | reflexivity].
  - edestruct (Hroute (convert_request "ADT_A01.hbs" (Some "1.0")) sample_world)
      as (Hfull & _); [reflexivity |].
    apply Hfull. reflexivity.
  - edestruct (Hroute (convert_request "missing.hbs" None) sample_world)
      as (_ & _ & Herror); [reflexivity |].
    apply Herror; [discriminate | discriminate].
Defined.

(** ** The reset to the base templates *)

Section BaseTemplates.
Context {C G P : Type}.
Context `{!FsCache C, !GitFilesystem G, !WorkerPool P, !Ncp}.
Implicit Types (w : World C G P) (req : Req).

Lemma run_bind {A B : Type} (p : Prog A) (f : A → Prog B) w :
  run (bind p f) w =
  let '(a, w1, t1) := run p w in
  let '(b, w2, t2) := run (f a) w1 in
  (b, w2, t1 ++ t2).
Proof.
  revert w. induction p as [a | X c k IH]; intros w.
  - simpl. destruct (run (f a) w) as [[b w2] t2]. reflexivity.
  - simpl. destruct (perform c w) as [x w1].
    rewrite IH. destruct (run (k x) w1) as [[a w2] t1].
    destruct (run (f a) w2) as [[b w3] t2]. reflexivity.
Qed.

Lemma with_templateDir_same w : with_templateDir (templateDir w) w = w.
Proof. by destruct w. Qed.

Lemma ensureDir_fresh (d : gmap string Node) temp :
  d !! temp = None →
  ensureDir (path_join TEMPLATE_FILES_LOCATION temp) (Dir d)
  = Some (Dir (<[temp := Dir ∅]> d)).
Proof. intros Hfresh. unfold path_join. simpl. by rewrite Hfresh. Qed.

Lemma rename_into_folder (m sub : gmap string Node) temp fl x :
  fl ≠ temp → m !! fl = Some x → m !! temp = Some (Dir sub) → sub !! fl = None →
  rename (path_join TEMPLATE_FILES_LOCATION fl) (path_join [temp] fl) (Dir m)
  = Some (Dir (<[temp := Dir (<[fl := x]> sub)]> (delete fl m))).
Proof.
  intros Hne Hx Htemp Hsub. unfold rename, path_join. simpl.
  rewrite Hx. simpl. rewrite lookup_delete_ne by done. rewrite Htemp. simpl.
  rewrite Hsub. reflexivity.
Qed.

Lemma moved_snoc_ne (k fl : string) (S : list string) :
  k ≠ fl → bool_decide (k ∈ S ++ [fl]) = bool_decide (k ∈ S).
Proof.
  intros Hne. apply bool_decide_ext.
  rewrite elem_of_app, list_elem_of_singleton. intuition congruence.
Qed.

(** The loop, from a directory in which the names in [S] have been
    moved into the folder [temp] already: it ends normally, with the
    names of [l] that do not start with a dot moved as well. *)
Lemma move_aside_run temp (d : gmap string Node) :
  String.prefix "." temp = true →
  ∀ l S w sub,
    NoDup l →
    (∀ fl, fl ∈ l → fl ∉ S) →
    (∀ fl, fl ∈ l → String.prefix "." fl = false → is_Some (d !! fl)) →
    templateDir w !! temp = Some (Dir sub) →
    (∀ fl, sub !! fl = if bool_decide (fl ∈ S) then d !! fl else None) →
    (∀ fl, fl ≠ temp →
           templateDir w !! fl = if bool_decide (fl ∈ S) then None else d !! fl) →
    ∃ m' sub' t,
      run (move_aside [temp] l) w = (Resolved tt, with_templateDir m' w, t) ∧
      m' !! temp = Some (Dir sub') ∧
      (∀ fl, sub' !! fl =
             if bool_decide
                  (fl ∈ S ++ filter (λ fl, String.prefix "." fl = false) l)
             then d !! fl else None) ∧
      (∀ fl, fl ≠ temp →
             m' !! fl =
             if bool_decide
                  (fl ∈ S ++ filter (λ fl, String.prefix "." fl = false) l)
             then None else d !! fl) ∧
      Forall quiet t.
Proof.
  intros Hdot l.
  induction l as [| fl l IH]; intros S w sub Hnd Hfresh Hin Htemp Hsub Htop.
  - exists (templateDir w), sub, []. rewrite with_templateDir_same.
    rewrite app_nil_r. by repeat split.
  - apply NoDup_cons in Hnd as [Hfl Hnd].
    simpl. destruct (String.prefix "." fl) eqn:Hfldot; simpl.
    + destruct (IH S w sub) as (m' & sub' & t & Hrun & ? & Hsub' & Htop' & ?);
        try done.
      { intros k Hk. apply Hfresh. by right. }
      { intros k Hk. apply Hin. by right. }
      exists m', sub', t. rewrite filter_cons_False by congruence. done.
    + assert (fl ≠ temp) as Hne by congruence.
      assert (fl ∉ S) as HflS by (apply Hfresh; left).
      destruct (Hin fl) as [x Hx]; [by left | done |].
      assert (templateDir w !! fl = Some x) as Hwx.
      { rewrite Htop by done. by rewrite bool_decide_eq_false_2. }
      assert (sub !! fl = None) as Hsubfl.
      { rewrite Hsub. by rewrite bool_decide_eq_false_2. }
      change (run (call (RenameSync (path_join TEMPLATE_FILES_LOCATION fl)
                                    (path_join [temp] fl)) ≫= _) w)
        with (let '(o, w1) :=
                perform (RenameSync (path_join TEMPLATE_FILES_LOCATION fl)
                                    (path_join [temp] fl)) w in
              let '(a, w2, t) :=
                run (match o with
                     | Resolved _ => move_aside [temp] l
                     | Rejected e => mret (Rejected e)
                     end) w1 in
              (a, w2, Ev (RenameSync (path_join TEMPLATE_FILES_LOCATION fl)
                                     (path_join [temp] fl)) o :: t)).
      cbn [perform].
      rewrite (rename_into_folder _ sub temp fl x) by done. cbn [fs_update].
      destruct (IH (S ++ [fl])
                   (with_templateDir
                      (<[temp:=Dir (<[fl:=x]> sub)]> (delete fl (templateDir w))) w)
                   (<[fl:=x]> sub))
        as (m' & sub' & t & Hrun & Hm' & Hsub' & Htop' & Hquiet); try done.
      { intros k Hk. rewrite elem_of_app, list_elem_of_singleton.
        intros [HkS | ->]; [| done]. revert HkS. apply Hfresh. by right. }
      { intros k Hk. apply Hin. by right. }
      { cbn. by rewrite lookup_insert_eq. }
      { intros k. destruct (decide (k = fl)) as [-> | Hk].
        - rewrite lookup_insert_eq, bool_decide_eq_true_2; [done |].
          apply elem_of_app. right. by left.
        - rewrite lookup_insert_ne by done. rewrite Hsub.
          by rewrite (moved_snoc_ne k fl S). }
      { intros k Hk. cbn. rewrite lookup_insert_ne by done.
        destruct (decide (k = fl)) as [-> | Hkfl].
        - rewrite lookup_delete_eq, bool_decide_eq_true_2; [done |].
          apply elem_of_app. right. by left.
        - rewrite lookup_delete_ne by done. rewrite Htop by done.
          by rewrite (moved_snoc_ne k fl S). }
      rewrite Hrun.
      exists m', sub',
        (Ev (RenameSync (path_join TEMPLATE_FILES_LOCATION fl)
                        (path_join [temp] fl)) (Resolved tt) :: t).
      rewrite filter_cons_True by done.
      rewrite <- app_assoc in Hsub', Htop'.
      split; [reflexivity |]. split; [done |].
      split; [exact Hsub' | split; [exact Htop' |]].
      constructor; [done | exact Hquiet].
Qed.

(** The run of the handler once the loop is known to end normally. *)
Lemma update_base_templates_run req w temp d1 t :
  temp = ".temp" +:+ pretty (clock w) →
  templateDir w !! temp = None →
  run (move_aside [temp] (map_to_list (<[temp := Dir ∅]> (templateDir w))).*1)
      (with_templateDir (<[temp := Dir ∅]> (templateDir w)) w)
  = (Resolved tt, with_templateDir d1 w, t) →
  run (post_UpdateBaseTemplates req) w =
  let '(err, d2) := ncp (baseTemplateDir w) d1 in
  let calls :=
    Ev DateGetTime (clock w)
    :: Ev (EnsureDirSync [temp]) (Resolved tt)
    :: Ev (ReaddirSync TEMPLATE_FILES_LOCATION)
          (Resolved (map_to_list (<[temp := Dir ∅]> (templateDir w))).*1)
    :: t ++ [Ev NcpBaseTemplates err] in
  if truthy err then
    (Resolved tt,
     with_res (res_send (errorMessage WriteError (get_property err "message"))
                        (res_status 403 (res w)))
              (with_templateDir d2 w),
     calls ++ [Ev (ResStatus 403) tt;
               Ev (ResJson (errorMessage WriteError
                              (get_property err "message"))) tt])
  else
    (Resolved tt,
     with_res (res_send Empty (res_status 200 (res w)))
       (with_workerPool (broadcast templatesUpdated (workerPool w))
          (with_templateCache (cache_clear (templateCache w))
             (with_templateDir d2 w))),
     calls ++ [Ev CacheClear tt;
               Ev (PoolBroadcast templatesUpdated) tt;
               Ev (ResStatus 200) tt;
               Ev (ResEnd None) tt]).
Proof.
  intros Htemp Hfresh Hrun. unfold post_UpdateBaseTemplates.
  cbn -[pretty ensureDir readdir move_aside ncp String.append path_join truthy
        get_property].
  rewrite <- Htemp. rewrite (ensureDir_fresh _ _ Hfresh).
  cbn -[pretty readdir move_aside ncp String.append path_join truthy
        get_property].
  change (path_join TEMPLATE_FILES_LOCATION temp) with [temp].
  change (readdir TEMPLATE_FILES_LOCATION (Dir (<[temp:=Dir ∅]> (templateDir w))))
    with (Some (map_to_list (<[temp:=Dir ∅]> (templateDir w))).*1).
  cbn -[pretty move_aside ncp String.append truthy get_property].
  unfold mbind, prog_bind. rewrite run_bind, Hrun.
  cbn -[pretty ncp String.append truthy get_property].
  destruct (ncp (baseTemplateDir w) d1) as [err d2].
  destruct (truthy err);
    cbn -[get_property]; rewrite <- app_assoc; reflexivity.
Qed.

(** C6, as amended: when the folder [.temp<time>] does not exist yet,
    the reset moves every entry of the template directory whose name
    does not start with a dot, unchanged, into that folder, and leaves
    every entry whose name starts with a dot where it is; nothing is
    deleted and nothing else appears.  [ncp] then copies the base
    templates into the directory so prepared.  When the copy succeeds
    (the [err] handed to the callback is falsy) the cache is cleared,
    [templatesUpdated] is broadcast and the answer is 200; when it
    fails the answer is 403 WriteError, carrying [err.message], and
    neither a cache update nor a broadcast is made. *)
Theorem update_base_templates_moves_aside req w :
  let temp := ".temp" +:+ pretty (clock w) in
  templateDir w !! temp = None →
  ∃ (aside d1 : gmap string Node),
    d1 !! temp = Some (Dir aside) ∧
    (∀ fl x, templateDir w !! fl = Some x →
       if String.prefix "." fl
       then d1 !! fl = Some x ∧ aside !! fl = None
       else d1 !! fl = None ∧ aside !! fl = Some x) ∧
    (∀ fl, templateDir w !! fl = None →
       aside !! fl = None ∧ (fl ≠ temp → d1 !! fl = None)) ∧
    let r := serve post_UpdateBaseTemplates req w in
    templateDir (world_of r) = (ncp (baseTemplateDir w) d1).2 ∧
    let err := (ncp (baseTemplateDir w) d1).1 in
    if truthy err then
      sent (res (world_of r))
        = Some (403, errorMessage WriteError (get_property err "message")) ∧
      templateCache (world_of r) = templateCache w ∧
      workerPool (world_of r) = workerPool w ∧
      Forall (fun e => is_cache_update e = false ∧ is_broadcast e = false)
             (trace_of r)
    else
      sent (res (world_of r)) = Some (200, Empty) ∧ clears_and_broadcasts w r.
Proof.
  intros temp Hfresh.
  assert (String.prefix "." temp = true) as Hdot by reflexivity.
  assert (temp = ".temp" +:+ pretty (clock w)) as Htemp by reflexivity.
  clearbody temp.
  set (d := templateDir w) in *.
  set (d0 := <[temp := Dir ∅]> d).
  destruct (move_aside_run temp d Hdot (map_to_list d0).*1 []
              (with_templateDir d0 (with_res fresh_res w)) ∅)
    as (d1 & aside & t & Hrun & Hd1 & Haside & Htop & Hquiet).
  { apply NoDup_fst_map_to_list. }
  { intros fl _. apply not_elem_of_nil. }
  { intros fl Hfl Hfldot.
    apply list_elem_of_fmap in Hfl as ([k x] & -> & Hkx).
    apply elem_of_map_to_list in Hkx. simpl in *.
    subst d0. rewrite lookup_insert_ne in Hkx by congruence. eauto. }
  { cbn. subst d0. by rewrite lookup_insert_eq. }
  { intros fl.
    by rewrite lookup_empty, bool_decide_eq_false_2 by apply not_elem_of_nil. }
  { intros fl Hfl. cbn. subst d0. rewrite lookup_insert_ne by done.
    by rewrite bool_decide_eq_false_2 by apply not_elem_of_nil. }
  simpl in Haside, Htop.
  assert (∀ fl, fl ∈ filter (λ fl, String.prefix "." fl = false) (map_to_list d0).*1
                ↔ String.prefix "." fl = false ∧ is_Some (d !! fl)) as Hmoved.
  { intros fl. rewrite list_elem_of_filter. split.
    - intros [Hfldot Hfl]. split; [done |].
      apply list_elem_of_fmap in Hfl as ([k x] & -> & Hkx).
      apply elem_of_map_to_list in Hkx. simpl in *.
      subst d0. rewrite lookup_insert_ne in Hkx by congruence. eauto.
    - intros [Hfldot [x Hx]]. split; [done |].
      apply list_elem_of_fmap. exists (fl, x). split; [done |].
      apply elem_of_map_to_list. subst d0.
      rewrite lookup_insert_ne by congruence. done. }
  exists aside, d1. split; [exact Hd1 |]. split; [| split].
  - intros fl x Hx.
    assert (fl ≠ temp) as Hne by (intros ->; congruence).
    rewrite Haside, (Htop fl Hne).
    destruct (String.prefix "." fl) eqn:Hfldot.
    + rewrite bool_decide_eq_false_2; [done |].
      rewrite Hmoved. intros [? _]; congruence.
    + rewrite bool_decide_eq_true_2; [done |]. rewrite Hmoved. eauto.
  - intros fl Hnone. rewrite Haside. split.
    + by case_bool_decide.
    + intros Hne. rewrite (Htop fl Hne). by case_bool_decide.
  - cbn zeta. unfold serve.
    rewrite (update_base_templates_run req (with_res fresh_res w) temp d1 t
               Htemp Hfresh Hrun).
    change (baseTemplateDir (with_res fresh_res w)) with (baseTemplateDir w).
    destruct (ncp (baseTemplateDir w) d1) as [err d2]. cbn [fst snd].
    destruct (truthy err); cbn -[get_property].
    + repeat (split; [done |]).
      repeat (constructor; [done |]).
      rewrite !Forall_app. split; [split |]; [| by repeat constructor ..].
      eapply Forall_impl; [exact Hquiet |]. by intros e (? & ? & _).
    + repeat (split; [done |]). unfold clears_and_broadcasts. cbn.
      repeat (split; [done |]).
      eexists (_ :: _ :: _ :: _ ++ [_]), [_; _]. reflexivity.
Qed.

End BaseTemplates.

(** The reset of C6 on the sample installation: the [.git] entry of the
    template directory is not in the temporary folder afterwards. *)
Lemma update_base_templates_keeps_dot_entries :
  ¬ all_moved_aside ".temp1583366400000" sample_templateDir
      (templateDir (world_of
         (serve post_UpdateBaseTemplates reset_request sample_world))).
Proof.
  intros Hall.
  specialize (Hall ".git" (Dir {[ "HEAD" := File "ref: refs/heads/master" ]})).
  assert (sample_templateDir !! ".git"
          = Some (Dir {[ "HEAD" := File "ref: refs/heads/master" ]})) as Hgit
    by reflexivity.
  specialize (Hall Hgit). vm_compute in Hall. discriminate Hall.
Qed.

Lemma update_base_templates_moves_aside_witness :
  templateDir sample_world !! (".temp" +:+ pretty (clock sample_world)) = None
  ∧ ∃ aside d1 : gmap string Node,
      d1 !! ".temp1583366400000" = Some (Dir aside)
      ∧ (d1 !! "ADT_A01.hbs" = None ∧ aside !! "ADT_A01.hbs" = Some (File "{{! v2 }}"))
      ∧ templateDir (world_of
          (serve post_UpdateBaseTemplates reset_request sample_world))
        = sample_baseTemplateDir ∪ d1.
Proof.
  assert (templateDir sample_world !! (".temp" +:+ pretty (clock sample_world))
          = None) as Hfresh by (vm_compute; reflexivity).
  split; [exact Hfresh |].
  destruct (update_base_templates_moves_aside reset_request sample_world Hfresh)
    as (aside & d1 & Hd1 & Hmove & _ & Hdir & _).
  exists aside, d1. split; [exact Hd1 |]. split.
  - apply (Hmove "ADT_A01.hbs" (File "{{! v2 }}")). reflexivity.
  - exact Hdir.
Defined.

(** ** The other routes, and every run of the reset *)

Section MoreRoutes.
Context {C G P : Type}.
Context `{!FsCache C, !GitFilesystem G, !WorkerPool P, !Ncp}.
Implicit Types (w : World C G P) (req : Req).

Ltac settle_call :=
  match goal with
  | |- context [cache_keys ?c] => destruct (cache_keys c) as [[?|?] ?]
  | |- context [cache_get ?f ?c] => destruct (cache_get f c) as [[?|?] ?]
  | |- context [cache_remove ?f ?c] => destruct (cache_remove f c) as [[?|?] ?]
  | |- context [cache_set ?f ?x ?c] => destruct (cache_set f x c) as [[?|?] ?]
  | |- context [cache_has ?f ?c] => destruct (cache_has f c) as [? ?]
  | |- context [createBranch ?a ?b ?g] => destruct (createBranch a b g) as [[?|?] ?]
  | |- context [checkoutBranch ?a ?g] => destruct (checkoutBranch a g) as [[?|?] ?]
  | |- context [commitAllChanges ?a ?b ?c ?g] =>
      destruct (commitAllChanges a b c g) as [[?|?] ?]
  | |- context [exec ?j ?p] => destruct (exec j p) as [? ?]
  | |- context [if ?b then _ else _] => destruct b eqn:?
  end.

Ltac run_route := unfold serve; cbn; repeat (settle_call; cbn).

(** X4: the branch-creation, template-listing, template-read and
    template-delete routes, whose every promise has both a [then] and a
    [catch], answer each request with exactly one send, whichever way
    the promise settles, and only under the statuses listed. *)
Theorem routes_answer_once :
  answers_once post_branches [201; 400; 409] ∧
  answers_once get_templates [200; 404] ∧
  answers_once get_template [200; 404] ∧
  answers_once delete_template [204; 404].
Proof.
  split; [| split; [| split]]; intros req w; unfold post_branches, get_templates, get_template, delete_template.
  all: run_route.
  all: try (split; [reflexivity | eexists _, _; split; [reflexivity | set_solver]]).
Qed.


(** X5: creating a branch, committing, listing or reading templates and
    converting never call [set], [remove] or [clear] on the template
    cache and never broadcast, however their promises settle. *)
Theorem read_and_store_routes_never_invalidate :
  never_invalidates post_branches ∧
  never_invalidates post_commit ∧
  never_invalidates get_templates ∧
  never_invalidates get_template ∧
  never_invalidates post_convert_hl7 ∧
  never_invalidates post_convert_hl7_template.
Proof.
  repeat apply conj; intros req w;
    unfold post_branches, post_commit, get_templates, get_template,
           post_convert_hl7, post_convert_hl7_template.
  all: run_route.
  all: by repeat constructor.
Qed.

(** X1: branch creation answers 400 BadRequest without calling the store
    when the body has no truthy [name]; otherwise 201 when
    [createBranch(name, baseBranch)] resolves and 409 Conflict, with the
    rejection reason appended to the message, when it rejects; in every
    case the template cache and the worker pool are left as they were. *)
Theorem branch_statuses req w :
  let nm := body_field (body req) "name" in
  let r := serve post_branches req w in
  (templateCache (world_of r) = templateCache w ∧
   workerPool (world_of r) = workerPool w) ∧
  (truthy nm = false →
   trace_of r =
     [Ev (ResStatus 400) tt;
      Ev (ResJson (errorMessage BadRequest "Branch name required")) tt] ∧
   sent (res (world_of r)) =
     Some (400, errorMessage BadRequest "Branch name required") ∧
   gfs (world_of r) = gfs w) ∧
  (truthy nm = true →
   ∀ g', createBranch nm (body_field (body req) "baseBranch") (gfs w)
         = (Resolved tt, g') →
   sent (res (world_of r)) = Some (201, Empty) ∧ gfs (world_of r) = g') ∧
  (truthy nm = true →
   ∀ reason g', createBranch nm (body_field (body req) "baseBranch") (gfs w)
                = (Rejected reason, g') →
   sent (res (world_of r)) =
     Some (409, errorMessage Conflict ("Unable to create new branch: " +:+ reason))).
Proof.
  intros nm r. subst nm r. unfold serve, post_branches.
  destruct (truthy (body_field (body req) "name")) eqn:Hname; cbn.
  - destruct (createBranch _ _ (gfs w)) as [[[] | reason] g] eqn:Hcreate; cbn.
    + repeat split; try done; intros; simplify_eq; done.
    + repeat split; try done; intros; simplify_eq; done.
  - repeat split; done.
Qed.

(** X2: a DELETE whose [remove] resolves is answered 204 after the
    [templatesUpdated] broadcast; one whose [remove] rejects is answered
    404 NotFound naming the template, with no broadcast and the pool as
    it was. *)
Theorem delete_statuses req w :
  let r := serve delete_template req w in
  (∀ c', cache_remove (param req) (templateCache w) = (Resolved tt, c') →
     sent (res (world_of r)) = Some (204, Empty) ∧
     templateCache (world_of r) = c' ∧
     workerPool (world_of r) = broadcast templatesUpdated (workerPool w)) ∧
  (∀ reason c', cache_remove (param req) (templateCache w) = (Rejected reason, c') →
     sent (res (world_of r)) =
       Some (404, errorMessage NotFound
                    ("Unable to find a template with name " +:+ param req
                     +:+ " to delete.")) ∧
     workerPool (world_of r) = workerPool w ∧
     Forall (fun e => is_broadcast e = false) (trace_of r)).
Proof.
  intros r. subst r. unfold serve, delete_template. cbn.
  destruct (cache_remove _ _) as [[[] | reason] c] eqn:Hremove; cbn.
  - split; intros; simplify_eq. done.
  - split; intros; simplify_eq. repeat split; try done. by repeat constructor.
Qed.

Lemma includes_listed (names : list string) (v : Json) :
  includes names v = true → ∃ s, v = JStr s ∧ s ∈ names.
Proof.
  destruct v; try discriminate. cbn. intros Hex.
  apply existsb_exists in Hex as (n & Hin & Heq).
  apply String.eqb_eq in Heq as ->. exists n. split; [done |].
  by apply list_elem_of_In.
Qed.

(** X3: whatever the request, the checkout route calls
    [checkoutBranch] only with a string that is the name of a branch
    [getBranches()] listed. *)
Theorem checkout_only_listed_branches req w :
  Forall (fun e => ∀ v, checkout_arg e = Some v →
                        ∃ b, b ∈ getBranches (gfs w) ∧ v = JStr (name b))
         (trace_of (serve post_checkout req w)).
Proof.
  unfold serve, post_checkout.
  destruct (truthy (body_field (body req) "name")) eqn:Hname; cbn;
    [| by repeat constructor].
  destruct (includes _ _) eqn:Hinc; cbn; [| by repeat constructor].
  apply includes_listed in Hinc as (s & Hv & Hs).
  apply list_elem_of_fmap in Hs as (b & -> & Hb).
  destruct (checkoutBranch _ _) as [[[] | reason] g]; cbn.
  all: repeat constructor; try done.
  all: intros v [= <-]; eauto.
Qed.

(** X6: [/git-upload-pack] and [/git-receive-pack] are matched as whole
    urls: with anything after them (a query string, a further segment)
    the request is passed to the next handler untouched. *)
Theorem git_matches_pack_paths_exactly req w (rest : string) :
  rest ≠ "" →
  url req = "/git-upload-pack" +:+ rest ∨ url req = "/git-receive-pack" +:+ rest →
  serve git req w =
  (req, with_forwarded (forwarded w ++ [req]) (with_res fresh_res w),
   [Ev (Next req) tt]).
Proof.
  intros Hrest Hurl. unfold serve. rewrite git_passes_on_shape; [reflexivity | ..].
  - by destruct Hurl as [-> | ->].
  - destruct Hurl as [-> | ->]; [| discriminate].
    intros Heq. destruct rest; [done | discriminate Heq].
  - destruct Hurl as [-> | ->]; [discriminate |].
    intros Heq. destruct rest; [done | discriminate Heq].
Qed.


Lemma fs_update_frame (o : option Node) w :
  ∃ a d, fs_update o w = (a, with_templateDir d w)
         ∧ (d = templateDir w ∨ o = Some (Dir d)).
Proof.
  destruct o as [[content | m] |]; cbn.
  - exists (Rejected "fs error"), (templateDir w).
    by rewrite with_templateDir_same; auto.
  - exists (Resolved tt), m. auto.
  - exists (Rejected "fs error"), (templateDir w).
    by rewrite with_templateDir_same; auto.
Qed.

Lemma move_aside_calls p l w :
  ∃ o d t,
    run (move_aside p l) w = (o, with_templateDir d w, t) ∧
    Forall (fun e => quiet e ∧ copy_answer e = None) t ∧
    omap renamed t =
      (λ fl, (path_join TEMPLATE_FILES_LOCATION fl, path_join p fl))
        <$> take (length t) (filter (λ fl, String.prefix "." fl = false) l) ∧
    length (omap renamed t) = length t ∧
    (o = Resolved tt →
     length t = length (filter (λ fl, String.prefix "." fl = false) l)) ∧
    (∀ reason, o = Rejected reason → (0 < length t)%nat).
Proof.
  revert w. induction l as [| fl l IH]; intros w.
  - exists (Resolved tt), (templateDir w), [].
    rewrite with_templateDir_same. by repeat split.
  - simpl. destruct (String.prefix "." fl) eqn:Hdot; simpl.
    + rewrite filter_cons_False by congruence. apply IH.
    + rewrite filter_cons_True by done.
      change (run (call (RenameSync (path_join TEMPLATE_FILES_LOCATION fl)
                                    (path_join p fl)) ≫= _) w)
        with (let '(o, w1) :=
                perform (RenameSync (path_join TEMPLATE_FILES_LOCATION fl)
                                    (path_join p fl)) w in
              let '(a, w2, t) :=
                run (match o with
                     | Resolved _ => move_aside p l
                     | Rejected e => mret (Rejected e)
                     end) w1 in
              (a, w2, Ev (RenameSync (path_join TEMPLATE_FILES_LOCATION fl)
                                     (path_join p fl)) o :: t)).
      cbn [perform].
      destruct (fs_update_frame
                  (rename (path_join TEMPLATE_FILES_LOCATION fl) (path_join p fl)
                          (Dir (templateDir w))) w) as (a & d & -> & _).
      destruct a as [[] | reason].
      * destruct (IH (with_templateDir d w))
          as (o & d' & t & -> & Hquiet & Hren & Hall & Hlen & Hrej).
        exists o, d', (Ev (RenameSync (path_join TEMPLATE_FILES_LOCATION fl)
                                      (path_join p fl)) (Resolved tt) :: t).
        split; [reflexivity |]. split; [by constructor |].
        split; [cbn; by rewrite Hren |].
        split; [cbn; by rewrite Hall |].
        split; [intros Ho; cbn; by rewrite Hlen | intros; cbn; lia].
      * exists (Rejected reason), d, [Ev (RenameSync (path_join TEMPLATE_FILES_LOCATION fl)
                                      (path_join p fl)) (Rejected reason)].
        split; [reflexivity |]. split; [by repeat constructor |].
        split; [reflexivity |]. split; [reflexivity |].
        split; [discriminate | intros; cbn; lia].
Qed.


Lemma ensureDir_top (d : gmap string Node) (temp : string) (n : Node) :
  ensureDir (path_join TEMPLATE_FILES_LOCATION temp) (Dir d) = Some n →
  ∃ child, n = Dir (<[temp := child]> d).
Proof.
  unfold path_join. simpl.
  destruct (default (Dir ∅) (d !! temp)) as [content | m]; [discriminate |].
  intros [= <-]. eauto.
Qed.

Lemma rename_top_frame (m m' : gmap string Node) (temp fl k : string) :
  rename (path_join TEMPLATE_FILES_LOCATION fl) (path_join [temp] fl) (Dir m)
    = Some (Dir m') →
  k ≠ fl → k ≠ temp → m' !! k = m !! k.
Proof.
  unfold rename, path_join. simpl. intros Hrename Hfl Htemp.
  destruct (m !! fl) as [x |]; [| discriminate]. simpl in Hrename.
  destruct (delete fl m !! temp) as [[content | sub] |]; try discriminate.
  simpl in Hrename.
  destruct (sub !! fl) as [old |]; [destruct (replaceable x old) |];
    try discriminate; injection Hrename as <-;
    by rewrite lookup_insert_ne, lookup_delete_ne.
Qed.

Lemma move_aside_keeps_dot_entries (temp k : string) l w :
  String.prefix "." k = true → k ≠ temp →
  templateDir (world_of (run (move_aside [temp] l) w)) !! k = templateDir w !! k.
Proof.
  intros Hk Htemp. revert w. induction l as [| fl l IH]; intros w; [done |].
  simpl. destruct (String.prefix "." fl) eqn:Hdot; simpl; [apply IH |].
  change (run (call (RenameSync (path_join TEMPLATE_FILES_LOCATION fl)
                                (path_join [temp] fl)) ≫= _) w)
    with (let '(o, w1) :=
            perform (RenameSync (path_join TEMPLATE_FILES_LOCATION fl)
                                (path_join [temp] fl)) w in
          let '(a, w2, t) :=
            run (match o with
                 | Resolved _ => move_aside [temp] l
                 | Rejected e => mret (Rejected e)
                 end) w1 in
          (a, w2, Ev (RenameSync (path_join TEMPLATE_FILES_LOCATION fl)
                                 (path_join [temp] fl)) o :: t)).
  cbn [perform].
  destruct (fs_update_frame
              (rename (path_join TEMPLATE_FILES_LOCATION fl) (path_join [temp] fl)
                      (Dir (templateDir w))) w) as (a & d & -> & Hd).
  assert (d !! k = templateDir w !! k) as Hframe.
  { destruct Hd as [-> | Hd]; [done |].
    apply (rename_top_frame _ _ temp fl k Hd); congruence. }
  destruct a as [[] | reason].
  - specialize (IH (with_templateDir d w)).
    destruct (run (move_aside [temp] l) (with_templateDir d w)) as [[o w2] t].
    cbn in *. by rewrite IH.
  - cbn. exact Hframe.
Qed.


Lemma omap_all_None {A B : Type} (f : A → option B) (l : list A) :
  Forall (fun x => f x = None) l → omap f l = [].
Proof. induction 1 as [| x l Hx _ IH]; [done |]. cbn. by rewrite Hx. Qed.

(** X8: an entry of the template directory whose name starts with a dot
    and is not the temporary folder of this reset is the same after the
    reset as before, in every run (also one cut short by an exception),
    provided the copy of the base templates does not write that
    entry. *)
Theorem reset_keeps_dot_entries req w (k : string) :
  String.prefix "." k = true →
  k ≠ ".temp" +:+ pretty (clock w) →
  (∀ destination, (ncp (baseTemplateDir w) destination).2 !! k = destination !! k) →
  templateDir (world_of (serve post_UpdateBaseTemplates req w)) !! k
  = templateDir w !! k.
Proof.
  intros Hk Htemp Hcopy. unfold serve, post_UpdateBaseTemplates.
  cbn -[pretty ensureDir readdir move_aside ncp String.append path_join].
  destruct (fs_update_frame
              (ensureDir (path_join TEMPLATE_FILES_LOCATION
                                    (".temp" +:+ pretty (clock w)))
                         (Dir (templateDir w))) (with_res fresh_res w))
    as (a & d & -> & Hd).
  assert (d !! k = templateDir w !! k) as Hensured.
  { destruct Hd as [-> | Hd]; [done |].
    apply ensureDir_top in Hd as [child [= ->]]. by rewrite lookup_insert_ne. }
  destruct a as [[] | reason]; [| exact Hensured].
  cbn -[pretty readdir move_aside ncp String.append path_join].
  destruct (readdir _ _) as [names |]; [| exact Hensured].
  cbn -[pretty move_aside ncp String.append path_join].
  unfold mbind, prog_bind. rewrite run_bind.
  pose proof (move_aside_keeps_dot_entries (".temp" +:+ pretty (clock w)) k names
                (with_templateDir d (with_res fresh_res w)) Hk Htemp) as Hloop.
  change (path_join TEMPLATE_FILES_LOCATION (".temp" +:+ pretty (clock w)))
    with [".temp" +:+ pretty (clock w)].
  destruct (move_aside_calls [".temp" +:+ pretty (clock w)] names
              (with_templateDir d (with_res fresh_res w)))
    as (o & d' & t & Hrun & _).
  rewrite Hrun in Hloop |- *. cbn in Hloop.
  destruct o as [[] | reason];
    cbn -[pretty ncp String.append truthy get_property];
    [| by rewrite Hloop].
  specialize (Hcopy d').
  destruct (ncp (baseTemplateDir w) d') as [err d2].
  destruct (truthy err); cbn in *; by rewrite Hcopy, Hloop.
Qed.


Lemma quiet_unmarked (e : Event) : quiet e → mark e = None.
Proof.
  destruct e as [X c a]. unfold quiet.
  destruct c; cbn; intros (? & ? & ?); done.
Qed.

Lemma listing_read_back (files : list string) :
  mapM templateName_of (map (fun f => JObj [("templateName", JStr f)]) files)
  = Some files.
Proof.
  induction files as [| f files IH]; [done |].
  cbn. cbn in IH. by rewrite IH.
Qed.

(** X10: when [keys()] resolves, the template listing is answered 200
    with a body from which the names read back, item by item under
    [templateName], are exactly the names [keys()] gave, in order; when
    [keys()] rejects the answer is 404 NotFound. *)
Theorem templates_listing_round_trip req w :
  let r := serve get_templates req w in
  (∀ files c', cache_keys (templateCache w) = (Resolved files, c') →
     ∃ p, sent (res (world_of r)) = Some (200, p) ∧ listed_templates p = Some files) ∧
  (∀ reason c', cache_keys (templateCache w) = (Rejected reason, c') →
     sent (res (world_of r)) =
       Some (404, errorMessage NotFound "Unable to access templates location")).
Proof.
  intros r. subst r. unfold serve, get_templates. cbn.
  destruct (cache_keys (templateCache w)) as [[files | reason] c]; cbn.
  - split; intros; simplify_eq. eexists. split; [reflexivity |].
    cbn. apply listing_read_back.
  - split; intros; simplify_eq. done.
Qed.

(** X11: in every run of the PUT, DELETE, checkout and reset routes
    there is at most one broadcast and at most one send, and a
    broadcast is always followed by the send: the workers are told
    before the client is answered, and never without an answer. *)
Theorem mutations_broadcast_before_answering :
  broadcasts_before_answering put_template ∧
  broadcasts_before_answering delete_template ∧
  broadcasts_before_answering post_checkout ∧
  broadcasts_before_answering post_UpdateBaseTemplates.
Proof.
  split; [| split; [| split]]; intros req w.
  - unfold put_template. run_route; set_solver.
  - unfold delete_template. run_route; set_solver.
  - unfold post_checkout. run_route; set_solver.
  - unfold serve, post_UpdateBaseTemplates.
    cbn -[pretty ensureDir readdir move_aside ncp String.append path_join].
    destruct (fs_update_frame
                (ensureDir (path_join TEMPLATE_FILES_LOCATION
                                      (".temp" +:+ pretty (clock w)))
                           (Dir (templateDir w))) (with_res fresh_res w))
      as (a & d & -> & _).
    destruct a as [[] | reason]; [| cbn; set_solver].
    cbn -[pretty readdir move_aside ncp String.append path_join].
    destruct (readdir _ _) as [names |]; [| cbn; set_solver].
    cbn -[pretty move_aside ncp String.append path_join].
    unfold mbind, prog_bind. rewrite run_bind.
    change (path_join TEMPLATE_FILES_LOCATION (".temp" +:+ pretty (clock w)))
      with [".temp" +:+ pretty (clock w)].
    destruct (move_aside_calls [".temp" +:+ pretty (clock w)] names
                (with_templateDir d (with_res fresh_res w)))
      as (o & d' & t & -> & Hquiet & _).
    assert (omap mark t = []) as Hnone.
    { apply omap_all_None. eapply Forall_impl; [exact Hquiet |].
      intros e [Hq _]. by apply quiet_unmarked. }
    destruct o as [[] | reason];
      cbn -[pretty ncp String.append truthy get_property].
    + destruct (ncp (baseTemplateDir w) d') as [err d2].
      destruct (truthy err);
        cbn -[get_property]; rewrite omap_app, Hnone; cbn; set_solver.
    + rewrite app_nil_r, Hnone. set_solver.
Qed.

End MoreRoutes.

Lemma branch_statuses_witness :
  sent (res (world_of (serve post_branches (request "" (BodyText "dev") "" None)
                             sample_world)))
    = Some (400, errorMessage BadRequest "Branch name required")
  ∧ sent (res (world_of (serve post_branches (checkout_request (JStr "feature"))
                               sample_world))) = Some (201, Empty)
  ∧ sent (res (world_of (serve post_branches (checkout_request (JStr "dev"))
                               sample_world)))
    = Some (409, errorMessage Conflict "Unable to create new branch: Conflict").
Proof.
  split; [| split].
  - destruct (branch_statuses (request "" (BodyText "dev") "" None) sample_world)
      as (_ & H400 & _).
    destruct H400 as (_ & Hsent & _); [reflexivity | exact Hsent].
  - destruct (branch_statuses (checkout_request (JStr "feature")) sample_world)
      as (_ & _ & H201 & _).
    edestruct H201 as [Hsent _]; [reflexivity | reflexivity | exact Hsent].
  - destruct (branch_statuses (checkout_request (JStr "dev")) sample_world)
      as (_ & _ & _ & H409).
    apply (H409 eq_refl "Conflict" sample_repository). reflexivity.
Defined.

Lemma delete_statuses_witness :
  sent (res (world_of (serve delete_template (get_request "ADT_A01.hbs")
                             sample_world))) = Some (204, Empty)
  ∧ sent (res (world_of (serve delete_template (get_request "ORU_R01.hbs")
                               sample_world)))
    = Some (404, errorMessage NotFound
                   "Unable to find a template with name ORU_R01.hbs to delete.").
Proof.
  split.
  - destruct (delete_statuses (get_request "ADT_A01.hbs") sample_world) as [H204 _].
    edestruct H204 as [Hsent _]; [reflexivity | exact Hsent].
  - destruct (delete_statuses (get_request "ORU_R01.hbs") sample_world) as [_ H404].
    edestruct (H404 "NotFound") as [Hsent _]; [reflexivity | exact Hsent].
Defined.

Lemma checkout_only_listed_branches_witness :
  ∃ b, b ∈ branches sample_repository ∧ JStr "dev" = JStr (name b).
Proof.
  pose proof (checkout_only_listed_branches (checkout_request (JStr "dev"))
                sample_world) as Hcalls.
  rewrite Forall_lookup in Hcalls.
  apply (Hcalls 1%nat (Ev (GfsCheckoutBranch (JStr "dev")) (Resolved tt)));
    reflexivity.
Defined.

Lemma git_matches_pack_paths_exactly_witness :
  trace_of (serve git (request "/git-upload-pack?depth=1" (BodyJson []) "" None)
                  sample_world)
  = [Ev (Next (request "/git-upload-pack?depth=1" (BodyJson []) "" None)) tt].
Proof.
  rewrite (git_matches_pack_paths_exactly
             (request "/git-upload-pack?depth=1" (BodyJson []) "" None)
             sample_world "?depth=1");
    [reflexivity | discriminate | left; reflexivity].
Defined.


Lemma reset_keeps_dot_entries_witness :
  templateDir (world_of (serve post_UpdateBaseTemplates reset_request sample_world))
    !! ".git"
  = Some (Dir {[ "HEAD" := File "ref: refs/heads/master" ]}).
Proof.
  rewrite (reset_keeps_dot_entries reset_request sample_world ".git").
  - reflexivity.
  - reflexivity.
  - intros Heq. vm_compute in Heq. discriminate Heq.
  - intros destination. cbn. apply lookup_union_r. reflexivity.
Defined.

Lemma templates_listing_round_trip_witness :
  ∃ p, sent (res (world_of (serve get_templates (get_request "") sample_world)))
       = Some (200, p)
       ∧ listed_templates p = Some ["ADT_A01.hbs"].
Proof.
  destruct (templates_listing_round_trip (get_request "") sample_world) as [Hlist _].
  apply (Hlist ["ADT_A01.hbs"] sample_cache). reflexivity.
Defined.

(** The reset on the sample installation with a copy that fails: [ncp]
    hands its callback the array of the errors it met, which has no
    [message], and the 403 envelope goes out without one. *)
Example reset_copy_failure_envelope :
  sent (res (world_of (serve (H := ncp_fails) post_UpdateBaseTemplates
                             reset_request sample_world)))
  = Some (403, errorMessage WriteError JUndefined).
Proof. vm_compute. reflexivity. Qed.
